(** * Enphase Envoy v7 driver: session client and production polling

    A shallow embedding of [drivers/enphase-envoy-v7/api.ts] (the class
    [EnphaseEnvoyApi]) and of [drivers/enphase-envoy-v7/device.ts] (the
    method [checkProduction] of [EnphaseEnvoy]), with the properties of
    the driver's specification stated over it.

    Asynchronous methods are run to completion one after the other: a
    method is a function from the state before the call to its outcome
    (a value or a thrown error) and the state after it.  A thrown error
    does not undo the assignments made before it.  The network is an
    arbitrary function from the requests sent so far and the current
    request to the outcome of [fetch]. *)

From Stdlib Require Import Ascii String.
From stdpp Require Import gmap strings list fin_maps pretty.

Open Scope string_scope.
Open Scope Z_scope.

(** ** Outcomes of a call, and the monad of methods *)

(** A JavaScript [Error]; only its [message] is ever read. *)
Record Error := mkError { message : string }.

Inductive Result (A : Type) : Type :=
| Ok (a : A)
| Throw (e : Error).
Arguments Ok {A} a.
Arguments Throw {A} e.

Definition M (S A : Type) : Type := S -> Result A * S.

Definition ret {S A} (a : A) : M S A := fun s => (Ok a, s).

Definition bind {S A B} (m : M S A) (k : A -> M S B) : M S B :=
  fun s =>
    match m s with
    | (Ok a, s') => k a s'
    | (Throw e, s') => (Throw e, s')
    end.

Definition throw {S A} (e : Error) : M S A := fun s => (Throw e, s).

Definition get {S} : M S S := fun s => (Ok s, s).

Definition modify {S} (f : S -> S) : M S unit := fun s => (Ok tt, f s).

(** [try { m } catch (err) { h err }] *)
Definition try_catch {S A} (m : M S A) (h : Error -> M S A) : M S A :=
  fun s =>
    match m s with
    | (Ok a, s') => (Ok a, s')
    | (Throw e, s') => h e s'
    end.

Declare Scope js_scope.
Delimit Scope js_scope with js.
Notation "x <- m ;; k" := (bind m (fun x => k))
  (at level 100, m at next level, right associativity) : js_scope.
Notation "m ;;; k" := (bind m (fun _ => k))
  (at level 100, right associativity) : js_scope.
Open Scope js_scope.

(** ** Values of the wire protocol *)

(** A field declared [string | null] that the code may also leave
    [undefined]. *)
Inductive Nullable (A : Type) : Type :=
| Null
| Undefined
| Val (a : A).
Arguments Null {A}.
Arguments Undefined {A}.
Arguments Val {A} a.

(** What a template literal or [+] prints for such a field. *)
Definition show (v : Nullable string) : string :=
  match v with
  | Null => "null"
  | Undefined => "undefined"
  | Val s => s
  end.

(** Modelled from the spec: [./types] ([ApiMeters], [ApiMeterReadings],
    [ApiProduction]) is not among the sources.  The records follow the
    spec's data model (MeterDescriptor, MeterReading, ProductionReport)
    and the fields [checkProduction] reads.  Numbers are the integer-valued
    ones. *)
Record Meter := mkMeter { eid : Z; measurementType : string }.

Record MeterReading := mkReading { reading_eid : Z; activePower : Z }.

Record ProductionEntry := mkEntry { wNow : Z }.

Record ApiProduction :=
  mkProduction { production : list ProductionEntry; wattHoursToday : Z }.

(** A response body once parsed, at one of the types the client declares
    for it. *)
Inductive Json : Type :=
| JsonLogin (session_id : string)
| JsonMeters (meters : list Meter)
| JsonMeterReadings (readings : list MeterReading)
| JsonProduction (report : ApiProduction).

Inductive Method := GET | POST.

Inductive RequestBody : Type :=
| NoBody
| FormData (fields : list (string * string))
| JsonBody (fields : list (string * string)).

(** The [agent] option: the default one (certificates validated), or the
    one built for the gateway, which accepts a self-signed certificate. *)
Inductive Agent := DefaultAgent | GatewayAgent.

Record Request := mkRequest {
  url : string;
  method : Method;
  headers : list (string * string);
  body : RequestBody;
  agent : Agent
}.

(** A response of node-fetch: [text] is the raw body, [json] its parse at
    the declared type ([None]: [json()] rejects), [set_cookie] is
    [headers.get("set-cookie")]. *)
Record Response := mkResponse {
  status : Z;
  set_cookie : option string;
  text : string;
  json : option Json
}.

(** [response.ok] of the Fetch standard: the status is in 200..299. *)
Definition ok (r : Response) : bool :=
  (200 <=? status r) && (status r <? 300).

Inductive FetchResult : Type :=
| Rejected (e : Error)
| Resolved (r : Response).

(** The outside world: given the requests sent so far (oldest first) and
    the request being sent, what [fetch] settles to. *)
Definition Network : Type := list Request -> Request -> FetchResult.

(** ** The session cookie pattern [/sessionId=(.*?);/] *)

Definition isLineTerminator (c : Ascii.ascii) : bool :=
  bool_decide (c = "010"%char) || bool_decide (c = "013"%char).

(** [(.*?);] anchored at the head of [s]: the shortest run of characters
    other than line terminators that is followed by a semicolon. *)
Fixpoint lazyUntilSemicolon (s : string) : option string :=
  match s with
  | EmptyString => None
  | String c rest =>
      if bool_decide (c = ";"%char) then Some EmptyString
      else if isLineTerminator c then None
      else String c <$> lazyUntilSemicolon rest
  end.

Fixpoint stripPrefix (p s : string) : option string :=
  match p, s with
  | EmptyString, _ => Some s
  | String a p', String b s' =>
      if bool_decide (a = b) then stripPrefix p' s' else None
  | String _ _, EmptyString => None
  end.

(** [s.match(/sessionId=(.*?);/)?.[1]]: capture group 1 of the leftmost
    match, [None] when the pattern matches nowhere. *)
Fixpoint matchSessionId (s : string) : option string :=
  match stripPrefix "sessionId=" s ≫= lazyUntilSemicolon with
  | Some v => Some v
  | None =>
      match s with
      | EmptyString => None
      | String _ rest => matchSessionId rest
      end
  end.

(** [headers.get("set-cookie")?.match(/sessionId=(.*?);/)?.[1]] *)
Definition parseSessionId (header : option string) : Nullable string :=
  match header ≫= matchSessionId with
  | Some v => Val v
  | None => Undefined
  end.

(** No character of [s] is a line terminator. *)
Fixpoint noLineTerminator (s : string) : bool :=
  match s with
  | EmptyString => true
  | String c rest => negb (isLineTerminator c) && noLineTerminator rest
  end.

(** No character of [s] is a semicolon. *)
Fixpoint noSemicolon (s : string) : bool :=
  match s with
  | EmptyString => true
  | String c rest => negb (bool_decide (c = ";"%char)) && noSemicolon rest
  end.

(** ** The class [EnphaseEnvoyApi] *)

Record EnphaseEnvoyApi := mkApi {
  address : option string;  (* null if only testing credentials *)
  deviceSn : string;
  username : string;
  password : string;
  accessToken : Nullable string;
  sessionId : Nullable string
}.

(** [new EnphaseEnvoyApi(address, deviceSn, username, password)] *)
Definition constructor (address : option string) (deviceSn username password : string)
  : EnphaseEnvoyApi :=
  mkApi address deviceSn username password Null Null.

Definition setCredentials (username password : string) (this : EnphaseEnvoyApi)
  : EnphaseEnvoyApi :=
  mkApi (address this) (deviceSn this) username password
        (accessToken this) (sessionId this).

Definition set_accessToken (v : Nullable string) (this : EnphaseEnvoyApi)
  : EnphaseEnvoyApi :=
  mkApi (address this) (deviceSn this) (username this) (password this)
        v (sessionId this).

Definition set_sessionId (v : Nullable string) (this : EnphaseEnvoyApi)
  : EnphaseEnvoyApi :=
  mkApi (address this) (deviceSn this) (username this) (password this)
        (accessToken this) v.

(** The client object together with the requests it has sent. *)
Record Client := mkClient {
  this : EnphaseEnvoyApi;
  sent : list Request
}.

Definition LOGIN_URL : string :=
  "https://enlighten.enphaseenergy.com/login/login.json".
Definition TOKENS_URL : string := "https://entrez.enphaseenergy.com/tokens".

Definition gatewayUrl (address : option string) (path : string) : string :=
  "https://" ++ show (from_option Val Null address) ++ "/" ++ path.

Section WithNetwork.

Variable net : Network.

(** [await fetch(req)]: the request is recorded, and the network's
    answer is returned or thrown. *)
Definition fetch (req : Request) : M Client Response :=
  fun c =>
    let c' := mkClient (this c) (sent c ++ [req]) in
    match net (sent c) req with
    | Resolved r => (Ok r, c')
    | Rejected e => (Throw e, c')
    end.

(** [await response.json()] at a declared type.  A body that does not
    parse makes [json()] reject; its message is the parser's and is not
    modelled.  A body that parses to another shape is outside the declared
    types: the code casts it unchecked, here it is rejected as well. *)
Definition parsed {A} (as_type : Json -> option A) (r : Response) : M Client A :=
  match json r ≫= as_type with
  | Some a => ret a
  | None => throw (mkError "invalid json response body")
  end.

Definition asLogin (j : Json) : option string :=
  match j with JsonLogin s => Some s | _ => None end.
Definition asMeters (j : Json) : option (list Meter) :=
  match j with JsonMeters l => Some l | _ => None end.
Definition asMeterReadings (j : Json) : option (list MeterReading) :=
  match j with JsonMeterReadings l => Some l | _ => None end.
Definition asProduction (j : Json) : option ApiProduction :=
  match j with JsonProduction p => Some p | _ => None end.

Definition loginRequest (username password : string) : Request :=
  mkRequest LOGIN_URL POST []
    (FormData [("user[email]", username); ("user[password]", password)])
    DefaultAgent.

Definition getEnphaseSessionId (username password : string) : M Client string :=
  authResponse <- fetch (loginRequest username password) ;;
  if negb (ok authResponse) then
    throw (mkError
      "Failed to authenticate to Enphase - are your username and password correct?")
  else
    parsed asLogin authResponse.

Definition tokenRequest (sessionId deviceSn username : string) : Request :=
  mkRequest TOKENS_URL POST [("Content-Type", "application/json")]
    (JsonBody [("session_id", sessionId); ("serial_num", deviceSn);
               ("username", username)])
    DefaultAgent.

Definition checkJwtRequest (address : option string) (token : Nullable string)
  : Request :=
  mkRequest (gatewayUrl address "auth/check_jwt") POST
    [("Authorization", "Bearer " ++ show token)] NoBody GatewayAgent.

Definition getAccessToken : M Client unit :=
  c <- get ;;
  sessionId <- getEnphaseSessionId (username (this c)) (password (this c)) ;;
  c <- get ;;
  tokenResponse <-
    fetch (tokenRequest sessionId (deviceSn (this c)) (username (this c))) ;;
  (if ok tokenResponse then
     modify (fun c =>
       mkClient (set_accessToken (Val (text tokenResponse)) (this c)) (sent c))
   else
     throw (mkError "An error occurred while retrieving an access token")) ;;;
  c <- get ;;
  checkJwtResponse <-
    fetch (checkJwtRequest (address (this c)) (accessToken (this c))) ;;
  if ok checkJwtResponse then
    modify (fun c =>
      mkClient (set_sessionId (parseSessionId (set_cookie checkJwtResponse))
                  (this c)) (sent c))
  else
    throw (mkError "An error occurred while retrieving an access token").

Definition cookieHeader (sessionId : Nullable string) : list (string * string) :=
  match sessionId with
  | Null => []
  | v => [("Cookie", "sessionId=" ++ show v)]
  end.

Definition gatewayRequest (address : option string) (path : string)
    (sessionId : Nullable string) : Request :=
  mkRequest (gatewayUrl address path) GET (cookieHeader sessionId) NoBody
    GatewayAgent.

Definition isClientError (r : Response) : bool :=
  (400 <=? status r) && (status r <? 500).

Definition fetchError (r : Response) (this : EnphaseEnvoyApi) : Error :=
  mkError ("An unknown error occurred while fetching inverter data:"
           ++ pretty (status r)
           ++ " and bearer: " ++ show (accessToken this)
           ++ " and sessionId: " ++ show (sessionId this)).

(** The body of [fetchApiEndpoint], with [self] for its recursive call. *)
Definition fetchApiEndpoint_body (self : string -> bool -> M Client Response)
    (path : string) (isRetry : bool) : M Client Response :=
  c <- get ;;
  match address (this c) with
  | None =>
      throw (mkError
        "Attempted to fetch data for an uninitialised Enphase device")
  | Some _ =>
      response <-
        fetch (gatewayRequest (address (this c)) path (sessionId (this c))) ;;
      if isClientError response && negb isRetry then
        (* Unauthorized, token might be expired - request token and retry (once) *)
        getAccessToken ;;;
        self path true
      else if negb (ok response) then
        c <- get ;;
        throw (fetchError response (this c))
      else
        ret response
  end.

(** The recursion, unrolled [fuel] times.  Two levels are all the method
    can use ([fetchApiEndpoint_fuel_enough]). *)
Fixpoint fetchApiEndpoint_fuel (fuel : nat) (path : string) (isRetry : bool)
  : M Client Response :=
  match fuel with
  | O => throw (mkError "fetchApiEndpoint: recursion deeper than a retry")
  | S fuel' => fetchApiEndpoint_body (fetchApiEndpoint_fuel fuel') path isRetry
  end.

Definition fetchApiEndpoint (path : string) (isRetry : bool) : M Client Response :=
  fetchApiEndpoint_fuel 2 path isRetry.

Definition getProductionData : M Client ApiProduction :=
  response <- fetchApiEndpoint "production.json" false ;;
  parsed asProduction response.

Definition getMeters : M Client (list Meter) :=
  response <- fetchApiEndpoint "ivp/meters" false ;;
  parsed asMeters response.

Definition getMeterReadings : M Client (list MeterReading) :=
  response <- fetchApiEndpoint "ivp/meters/readings" false ;;
  parsed asMeterReadings response.

End WithNetwork.

(** ** The device [EnphaseEnvoy] *)

Definition NET_CONSUMPTION_METER : string := "net-consumption".
Definition PRODUCTION_METER : string := "production".

(** What [this.homey.log] is given. *)
Inductive LogEntry : Type :=
| LogText (s : string)
| LogMeters (meterData : list Meter)
| LogProduction (productionData : ApiProduction).

Inductive Availability : Type :=
| Available
| Unavailable (message : string).

(** Modelled from the spec: the platform side of the device
    ([setCapabilityValue], [setAvailable], [setUnavailable], [homey.log]),
    inherited through [../../inverter], is not among the sources.  It is
    the collaborator of the spec's design notes: a store of capability
    values, the availability of the device (with the message given to
    [setUnavailable] when it is not available), and the lines logged,
    oldest first.  Its operations do not fail. *)
Record Homey := mkHomey {
  capabilities : gmap string Z;
  availability : Availability;
  logged : list LogEntry
}.

Record EnphaseEnvoy := mkDevice {
  enphaseApi : option Client;  (* undefined until the device is discovered *)
  homey : Homey
}.

(** The state of a poll that has a client. *)
Record Running := mkRunning {
  api : Client;
  platform : Homey
}.

Definition callApi {A} (m : M Client A) : M Running A :=
  fun s =>
    match m (api s) with
    | (r, c') => (r, mkRunning c' (platform s))
    end.

Definition onHomey (f : Homey -> Homey) : M Running unit :=
  modify (fun s => mkRunning (api s) (f (platform s))).

Definition log_ (e : LogEntry) (h : Homey) : Homey :=
  mkHomey (capabilities h) (availability h) (logged h ++ [e]).

Definition setCapabilityValue_ (name : string) (value : Z) (h : Homey) : Homey :=
  mkHomey (<[name := value]> (capabilities h)) (availability h) (logged h).

Definition setAvailable_ (h : Homey) : Homey :=
  mkHomey (capabilities h) Available (logged h).

Definition setUnavailable_ (message : string) (h : Homey) : Homey :=
  mkHomey (capabilities h) (Unavailable message) (logged h).

Definition homey_log (e : LogEntry) : M Running unit := onHomey (log_ e).
Definition setCapabilityValue (name : string) (value : Z) : M Running unit :=
  onHomey (setCapabilityValue_ name value).
Definition setAvailable : M Running unit := onHomey setAvailable_.
Definition setUnavailable (message : string) : M Running unit :=
  onHomey (setUnavailable_ message).

(** The values [isMetered] can hold: [meterData.length && ...] is the
    number 0 for an empty list and a boolean otherwise. *)
Inductive JsValue : Type :=
| JsNumber (n : Z)
| JsBoolean (b : bool).

Definition truthy (v : JsValue) : bool :=
  match v with
  | JsNumber n => negb (n =? 0)
  | JsBoolean b => b
  end.

(** [a && b] *)
Definition js_and (a b : JsValue) : JsValue := if truthy a then b else a.

(** [list.includes(x)] *)
Definition includes (l : list string) (x : string) : bool := bool_decide (x ∈ l).

(** The initial value of [isMetered] (lines 103-111). *)
Definition isMetered_computed (meterData : list Meter) : JsValue :=
  js_and (JsNumber (Z.of_nat (length meterData)))
         (JsBoolean
            (forallb
               (fun measurementType =>
                  includes [NET_CONSUMPTION_METER; PRODUCTION_METER] measurementType)
               (map measurementType meterData))).

(** A meter of one of the two types that make an Envoy metered. *)
Definition isMeterType (meter : Meter) : Prop :=
  measurementType meter = NET_CONSUMPTION_METER \/
  measurementType meter = PRODUCTION_METER.

(** The double nearest to an integer, ties going to the even significand,
    for integers whose nearest double is finite (a magnitude below
    2^1024 - 2^970).  Below 2^53 every integer is a double; from there on
    the doubles of magnitude in [2^e, 2^(e+1)) are the multiples of
    2^(e-52). *)
Definition roundToDouble (z : Z) : Z :=
  if Z.abs z <? 2 ^ 53 then z
  else
    let ulp := 2 ^ (Z.log2 (Z.abs z) - 52) in
    let q := z / ulp in
    let r := z mod ulp in
    if 2 * r <? ulp then q * ulp
    else if ulp <? 2 * r then (q + 1) * ulp
    else if Z.even q then q * ulp
    else (q + 1) * ulp.


(** [a + b] on two numbers of the model, as line 168 computes it: the
    exact sum, rounded to a double. *)
Definition js_add (a b : Z) : Z := roundToDouble (a + b).

(** [v || null] on an optional number: 0 and undefined both give null. *)
Definition orNull (v : option Z) : option Z :=
  match v with
  | Some n => if n =? 0 then None else Some n
  | None => None
  end.

(** [meterData.find((meter) => meter.measurementType === type)?.eid] *)
Definition eidOfType (type : string) (meterData : list Meter) : option Z :=
  eid <$> find (fun meter => bool_decide (measurementType meter = type)) meterData.

(** [meterReadingsData.find((meter) => meter.eid === <eid of type>)
      ?.activePower || null] *)
Definition activePowerOfType (type : string) (meterData : list Meter)
    (meterReadingsData : list MeterReading) : option Z :=
  orNull
    (activePower <$>
       find (fun meter =>
               bool_decide (Some (reading_eid meter) = eidOfType type meterData))
            meterReadingsData).

Definition productionPower := activePowerOfType PRODUCTION_METER.
Definition gridConsumptionPower := activePowerOfType NET_CONSUMPTION_METER.

Definition JOIN_DIAGNOSTIC : string :=
  "Envoy is metered but could not fetch either net-consumption or production values from meters".

Section Polling.

Variable net : Network.

(** The block under [if (!isMetered)].  [JSON] is an object, hence
    truthy; reading [wNow] of a missing first entry is a TypeError. *)
Definition unmeteredBranch (productionData : ApiProduction) : M Running unit :=
  currentPower <-
    match production productionData with
    | entry :: _ => ret (wNow entry)
    | [] =>
        throw (mkError "Cannot read properties of undefined (reading 'wNow')")
    end ;;
  setCapabilityValue "measure_power" currentPower ;;;
  homey_log
    (LogText ("Current production power is " ++ pretty currentPower ++ "W")) ;;;
  (* Set consumption and grid power to 0 if Envoy is not metered *)
  setCapabilityValue "measure_power.consumption" 0 ;;;
  setCapabilityValue "measure_power.grid" 0.

(** The block under [if (isMetered)]. *)
Definition meteredBranch (meterData : list Meter) : M Running unit :=
  (* Get production, consumption and net import data from meters *)
  meterReadingsData <- callApi (getMeterReadings net) ;;
  match productionPower meterData meterReadingsData,
        gridConsumptionPower meterData meterReadingsData with
  | Some productionPower, Some gridConsumptionPower =>
      let selfConsumption := js_add productionPower gridConsumptionPower in
      setCapabilityValue "measure_power" productionPower ;;;
      homey_log
        (LogText ("Current production power is " ++ pretty productionPower ++ "W")) ;;;
      setCapabilityValue "measure_power.consumption" selfConsumption ;;;
      setCapabilityValue "measure_power.grid" gridConsumptionPower
  | _, _ => homey_log (LogText JOIN_DIAGNOSTIC)
  end.

(** The statements of the [try] block from line 116 on, for the value
    [isMetered] holds when they are reached. *)
Definition reportReadings (meterData : list Meter) (isMetered : JsValue)
  : M Running unit :=
  (* Get production data from inverter reports *)
  productionData <- callApi (getProductionData net) ;;
  homey_log (LogProduction productionData) ;;;
  let currentEnergy := 0 in
  setCapabilityValue "meter_power" currentEnergy ;;;
  homey_log
    (LogText ("Current production energy is " ++ pretty currentEnergy ++ "kWh")) ;;;
  (if negb (truthy isMetered) then unmeteredBranch productionData else ret tt) ;;;
  (if truthy isMetered then meteredBranch meterData else ret tt) ;;;
  setAvailable.

(** The [try] block. *)
Definition checkProduction_try : M Running unit :=
  meterData <- callApi (getMeters net) ;;
  homey_log (LogMeters meterData) ;;;
  let isMetered := isMetered_computed meterData in
  (* override isMetered to false *)
  let isMetered := JsBoolean false in
  reportReadings meterData isMetered.

Definition checkProduction_catch (err : Error) : M Running unit :=
  let errorMessage := message err in
  homey_log (LogText ("Unavailable: " ++ errorMessage)) ;;;
  setUnavailable errorMessage.

Definition checkProduction (device : EnphaseEnvoy) : EnphaseEnvoy :=
  let h := log_ (LogText "Checking production") (homey device) in
  match enphaseApi device with
  | Some client =>
      match try_catch checkProduction_try checkProduction_catch
              (mkRunning client h) with
      | (_, s) => mkDevice (Some (api s)) (platform s)
      end
  | None =>
      mkDevice None
        (setUnavailable_ "Enphase Envoy could not be discovered on your network" h)
  end.

End Polling.

(** ** The steps of [getAccessToken] *)

(** The client after the login request of [getAccessToken] was sent. *)
Definition afterLogin (c : Client) : Client :=
  mkClient (this c)
           (sent c ++ [loginRequest (username (this c)) (password (this c))]).

(** The request of step 2 and the client once it was sent. *)
Definition exchangeRequest (c : Client) (sid : string) : Request :=
  tokenRequest sid (deviceSn (this c)) (username (this c)).

Definition afterExchange (c : Client) (sid : string) (self : EnphaseEnvoyApi)
  : Client :=
  mkClient self (sent (afterLogin c) ++ [exchangeRequest c sid]).

(** The request of step 3 and the client once it was sent. *)
Definition jwtRequest (c : Client) (token : string) : Request :=
  checkJwtRequest (address (this c)) (Val token).

Definition afterCheck (c : Client) (sid token : string) (self : EnphaseEnvoyApi)
  : Client :=
  mkClient self (sent (afterExchange c sid self) ++ [jwtRequest c token]).

Definition tokenError : Error :=
  mkError "An error occurred while retrieving an access token".

(** ** Test networks *)

(** The network that answers the n-th request sent with the n-th entry of
    a script, and refuses the connection once the script is over. *)
Definition scripted (script : list FetchResult) : Network :=
  fun history _ => nth (length history) script (Rejected (mkError "ECONNREFUSED")).

Definition respond (status : Z) (set_cookie : option string) (text : string)
    (json : option Json) : FetchResult :=
  Resolved (mkResponse status set_cookie text json).

(** A client that already holds a token and a cookie. *)
Definition staleClient : Client :=
  mkClient (mkApi (Some "192.168.1.20") "122000000001" "user@example.org" "secret"
                  (Val "OLDTOKEN") (Val "oldcookie")) [].

Definition loginOk : FetchResult :=
  respond 200 None "{session_id: S1}" (Some (JsonLogin "S1")).


Definition tokenOk : FetchResult := respond 200 None "NEWTOKEN" None.

(** The cloud accepts the login and hands out a token; the gateway then
    rejects the token. *)
Definition net_jwt_rejected : Network :=
  scripted [loginOk; tokenOk; respond 401 None "unauthorized" None].

(** The gateway accepts the token but sends no [Set-Cookie] header. *)
Definition net_no_cookie : Network :=
  scripted [loginOk; tokenOk; respond 200 None "valid token" None].

(** The whole sequence succeeds. *)
Definition net_authenticated : Network :=
  scripted [loginOk; tokenOk;
            respond 200 (Some "sessionId=abc123; Path=/; HttpOnly") "valid token" None].

(** The cloud rejects the credentials. *)
Definition net_login_rejected : Network :=
  scripted [respond 401 None "invalid credentials" None].

(** ** Counting requests *)

(** The requests sent during a call: those of [after] that follow the
    ones of [before]. *)
Definition sentBetween (before after : Client) : list Request :=
  drop (length (sent before)) (sent after).

Definition countRequests (p : Request -> bool) (l : list Request) : nat :=
  length (List.filter p l).

(** A [POST] to the cloud login endpoint: the request that opens every
    run of [getAccessToken]. *)
Definition isLoginRequest (req : Request) : bool :=
  match method req with
  | POST => bool_decide (url req = LOGIN_URL)
  | GET => false
  end.

(** A [GET] of the gateway endpoint [path]. *)
Definition isGatewayGet (address : option string) (path : string) (req : Request)
  : bool :=
  match method req with
  | GET => bool_decide (url req = gatewayUrl address path)
  | POST => false
  end.

(** The client once [fetchApiEndpoint] has sent its request. *)
Definition afterRequest (c : Client) (path : string) : Client :=
  mkClient (this c)
           (sent c ++ [gatewayRequest (address (this c)) path (sessionId (this c))]).

Definition uninitialisedError : Error :=
  mkError "Attempted to fetch data for an uninitialised Enphase device".

(** One attempt that cannot be retried: the request is sent and its
    outcome decides. *)
Definition singleAttempt (net : Network) (path : string) (c : Client)
  : Result Response * Client :=
  match net (sent c) (gatewayRequest (address (this c)) path (sessionId (this c))) with
  | Rejected e => (Throw e, afterRequest c path)
  | Resolved response =>
      if ok response then (Ok response, afterRequest c path)
      else (Throw (fetchError response (this c)), afterRequest c path)
  end.

Fixpoint lastChar (s : string) : option Ascii.ascii :=
  match s with
  | EmptyString => None
  | String c EmptyString => Some c
  | String _ rest => lastChar rest
  end.

(** The gateway answers 401, the cloud hands out a token, and the gateway
    rejects it. *)
Definition net_expired_jwt_rejected : Network :=
  scripted [respond 401 None "unauthorized" None;
            loginOk; tokenOk;
            respond 401 None "unauthorized" None].

(** The gateway answers 401 before and after a successful
    re-authentication. *)
Definition net_always_401 : Network :=
  scripted [respond 401 None "unauthorized" None;
            loginOk; tokenOk;
            respond 200 (Some "sessionId=abc123; Path=/; HttpOnly") "valid token" None;
            respond 401 None "unauthorized" None].

(** ** The platform state along a poll *)

Definition ENERGY_LINE : LogEntry :=
  LogText ("Current production energy is " ++ pretty 0 ++ "kWh").

Definition powerLine (power : Z) : LogEntry :=
  LogText ("Current production power is " ++ pretty power ++ "W").

(** After the production report was fetched and logged and [meter_power]
    was set. *)
Definition energyReported (productionData : ApiProduction) (h : Homey) : Homey :=
  log_ ENERGY_LINE
    (setCapabilityValue_ "meter_power" 0 (log_ (LogProduction productionData) h)).

(** After the unmetered block reported [currentPower]. *)
Definition unmeteredReported (currentPower : Z) (h : Homey) : Homey :=
  setCapabilityValue_ "measure_power.grid" 0
    (setCapabilityValue_ "measure_power.consumption" 0
       (log_ (powerLine currentPower)
          (setCapabilityValue_ "measure_power" currentPower h))).

(** After the metered block reported the two meters. *)
Definition meteredReported (productionPower gridConsumptionPower : Z) (h : Homey)
  : Homey :=
  setCapabilityValue_ "measure_power.grid" gridConsumptionPower
    (setCapabilityValue_ "measure_power.consumption"
       (js_add productionPower gridConsumptionPower)
       (log_ (powerLine productionPower)
          (setCapabilityValue_ "measure_power" productionPower h))).

Definition wNowError : Error :=
  mkError "Cannot read properties of undefined (reading 'wNow')".

(** The poll with the metered block left out. *)
Definition unmeteredPoll (net : Network) : M Running unit :=
  meterData <- callApi (getMeters net) ;;
  homey_log (LogMeters meterData) ;;;
  productionData <- callApi (getProductionData net) ;;
  homey_log (LogProduction productionData) ;;;
  setCapabilityValue "meter_power" 0 ;;;
  homey_log ENERGY_LINE ;;;
  unmeteredBranch productionData ;;;
  setAvailable.

(** ** Test polls *)

Definition idleHomey : Homey :=
  mkHomey {[ "measure_power" := 100; "measure_power.consumption" := 40;
             "measure_power.grid" := -60 ]} Available [].

Definition discovered : EnphaseEnvoy := mkDevice (Some staleClient) idleHomey.

Definition twoMeters : list Meter :=
  [mkMeter 704643328 "production"; mkMeter 704643584 "net-consumption"].

Definition metersOk : FetchResult :=
  respond 200 None "[...]" (Some (JsonMeters twoMeters)).

Definition productionOk : FetchResult :=
  respond 200 None "{...}"
    (Some (JsonProduction (mkProduction [mkEntry 842] 12345))).

(** A gateway that accepts the cookie and reports 842 W. *)
Definition net_producing : Network := scripted [metersOk; productionOk].

(** The gateway cannot be reached. *)
Definition net_unreachable : Network := scripted [].


(** The production report, then readings without the production meter. *)
Definition net_no_production_reading : Network :=
  scripted [productionOk;
            respond 200 None "[...]"
              (Some (JsonMeterReadings [mkReading 704643584 (-120)]))].

(** The production report, then readings in which the production meter
    reads 0 W. *)
Definition net_night : Network :=
  scripted [productionOk;
            respond 200 None "[...]"
              (Some (JsonMeterReadings
                       [mkReading 704643328 0; mkReading 704643584 350]))].

Definition polling : Running := mkRunning staleClient idleHomey.


(** ** The lifecycle callbacks of the device *)

(** Modelled from the spec: [DeviceSettings] of [./types] is not among the
    sources; the callbacks read its [username] and [password]. *)
Record DeviceSettings := mkSettings {
  settings_username : string;
  settings_password : string
}.

(** The fields of a [DiscoveryResultMDNSSD] that the callbacks read. *)
Record DiscoveryResult := mkDiscovery {
  discovery_id : string;
  discovery_address : string
}.

(** [new EnphaseEnvoyApi(`${discoveryResult.address}`, this.getData().id,
    username, password)]: a client that has sent nothing yet.  [id] is
    [this.getData().id] and [settings] is [this.getSettings()]. *)
Definition discoveredClient (id : string) (settings : DeviceSettings)
    (discoveryResult : DiscoveryResult) : Client :=
  mkClient
    (constructor (Some (discovery_address discoveryResult)) id
       (settings_username settings) (settings_password settings))
    [].

Definition onDiscoveryResult (id : string) (discoveryResult : DiscoveryResult)
  : bool :=
  bool_decide (discovery_id discoveryResult = id).

(** The assignment of [this.enphaseApi] precedes the request, so the new
    client stays in place when [getProductionData] throws. *)
Definition onDiscoveryAvailable (net : Network) (id : string)
    (settings : DeviceSettings) (discoveryResult : DiscoveryResult)
    (device : EnphaseEnvoy) : Result unit * EnphaseEnvoy :=
  match getProductionData net (discoveredClient id settings discoveryResult) with
  | (Ok _, client) => (Ok tt, mkDevice (Some client) (homey device))
  | (Throw e, client) => (Throw e, mkDevice (Some client) (homey device))
  end.

Definition onDiscoveryAddressChanged (id : string) (settings : DeviceSettings)
    (discoveryResult : DiscoveryResult) (device : EnphaseEnvoy) : EnphaseEnvoy :=
  mkDevice (Some (discoveredClient id settings discoveryResult)) (homey device).

Definition onDiscoveryLastSeenChanged (device : EnphaseEnvoy) : EnphaseEnvoy :=
  mkDevice (enphaseApi device) (setAvailable_ (homey device)).

(** The static [EnphaseEnvoyApi.getEnphaseSessionId] called outside any
    client: its request is the first of a history of its own. *)
Definition verifyCredentials (net : Network) (username password : string)
  : Result string :=
  fst (getEnphaseSessionId net username password
         (mkClient (constructor None EmptyString username password) [])).

(** [this.enphaseApi?.setCredentials(username, password)] *)
Definition withCredentials (username password : string) (client : option Client)
  : option Client :=
  (fun c => mkClient (setCredentials username password (this c)) (sent c))
    <$> client.

Definition onSettings (net : Network) (newSettings : DeviceSettings)
    (device : EnphaseEnvoy) : Result unit * EnphaseEnvoy :=
  match verifyCredentials net (settings_username newSettings)
          (settings_password newSettings) with
  | Throw e => (Throw e, device)
  | Ok _ =>
      (Ok tt,
       mkDevice
         (withCredentials (settings_username newSettings)
            (settings_password newSettings) (enphaseApi device))
         (setAvailable_ (homey device)))
  end.

(** ** More test networks and clients *)

(** A client built for testing credentials only: it has no address. *)
Definition credentialsOnlyClient : Client :=
  mkClient (constructor None "122000000001" "user@example.org" "secret") [].

Definition loginFailedError : Error :=
  mkError
    "Failed to authenticate to Enphase - are your username and password correct?".

(** The gateway answers every request with a 503. *)
Definition net_gateway_down : Network :=
  fun _ _ => respond 503 None "service unavailable" None.

(** The gateway answers 401, accepts the fresh token without setting a
    cookie, and answers the retried request. *)
Definition net_reauth_no_cookie : Network :=
  scripted [respond 401 None "unauthorized" None;
            loginOk; tokenOk;
            respond 200 None "valid token" None;
            respond 200 None "[...]" (Some (JsonMeters []))].

(** The gateway accepts the cookie and sends a report without production
    entries. *)
Definition net_empty_report : Network :=
  scripted [respond 200 None "[...]" (Some (JsonMeters []));
            respond 200 None "{...}" (Some (JsonProduction (mkProduction [] 0)))].

Definition newCredentials : DeviceSettings := mkSettings "new@example.org" "hunter2".

Definition movedGateway : DiscoveryResult :=
  mkDiscovery "122000000001" "192.168.1.77".
(** ** The session client: how [getAccessToken] runs *)

Ltac run_monad :=
  unfold bind, ret, throw, get, modify, try_catch, fetch, parsed in *; simpl in *.

Section ClientFacts.

Variable net : Network.

Lemma getEnphaseSessionId_client u p c :
  snd (getEnphaseSessionId net u p c)
  = mkClient (this c) (sent c ++ [loginRequest u p]).
Proof.
  unfold getEnphaseSessionId. run_monad.
  destruct (net (sent c) (loginRequest u p)) as [e|r]; [reflexivity|].
  destruct (ok r); simpl; [|reflexivity].
  destruct (json r ≫= asLogin); reflexivity.
Qed.

(** [getAccessToken], step by step. *)
Lemma getAccessToken_steps c :
  getAccessToken net c =
  match fst (getEnphaseSessionId net (username (this c)) (password (this c)) c) with
  | Throw e => (Throw e, afterLogin c)
  | Ok sid =>
      match net (sent (afterLogin c)) (exchangeRequest c sid) with
      | Rejected e => (Throw e, afterExchange c sid (this c))
      | Resolved tokenResponse =>
          if ok tokenResponse then
            let token := text tokenResponse in
            let self := set_accessToken (Val token) (this c) in
            match net (sent (afterExchange c sid self)) (jwtRequest c token) with
            | Rejected e => (Throw e, afterCheck c sid token self)
            | Resolved checkJwtResponse =>
                if ok checkJwtResponse then
                  (Ok tt,
                   afterCheck c sid token
                     (set_sessionId
                        (parseSessionId (set_cookie checkJwtResponse)) self))
                else (Throw tokenError, afterCheck c sid token self)
            end
          else (Throw tokenError, afterExchange c sid (this c))
      end
  end.
Proof.
  pose proof (getEnphaseSessionId_client (username (this c)) (password (this c)) c)
    as Hc.
  unfold getAccessToken at 1. unfold bind at 1. unfold get at 1. 
  unfold bind at 1.
  destruct (getEnphaseSessionId net (username (this c)) (password (this c)) c)
    as [[sid|e] c1]; simpl in Hc; subst c1; simpl; [|reflexivity].
  run_monad. unfold afterLogin, exchangeRequest. simpl.
  destruct (net _ (tokenRequest _ _ _)) as [e|tr]; [reflexivity|].
  destruct (ok tr); simpl; [|reflexivity].
  unfold jwtRequest. simpl.
  destruct (net _ (checkJwtRequest _ _)) as [e|jr]; [reflexivity|].
  destruct (ok jr); reflexivity.
Qed.

End ClientFacts.

(** ** Which secrets a run of [getAccessToken] replaces *)

(** C1, as the code has it.  The session cookie is replaced only by a run
    in which all three steps succeed.  A failure of the cloud login or of
    the token exchange leaves the client, hence both secrets, as it was.
    Once the token exchange has succeeded the bearer token is the new one,
    whatever the gateway answers in the third step. *)
Theorem getAccessToken_secrets (net : Network) (c : Client) :
  let r := fst (getAccessToken net c) in
  let c' := snd (getAccessToken net c) in
  let login :=
    fst (getEnphaseSessionId net (username (this c)) (password (this c)) c) in
  (forall e, r = Throw e -> sessionId (this c') = sessionId (this c)) /\
  (forall e, login = Throw e -> r = Throw e /\ this c' = this c) /\
  (forall sid e,
     login = Ok sid ->
     net (sent (afterLogin c)) (exchangeRequest c sid) = Rejected e ->
     r = Throw e /\ this c' = this c) /\
  (forall sid tokenResponse,
     login = Ok sid ->
     net (sent (afterLogin c)) (exchangeRequest c sid) = Resolved tokenResponse ->
     if ok tokenResponse
     then accessToken (this c') = Val (text tokenResponse)
     else r = Throw tokenError /\ this c' = this c) /\
  (r = Ok tt ->
   exists sid tokenResponse checkJwtResponse,
     login = Ok sid /\
     net (sent (afterLogin c)) (exchangeRequest c sid) = Resolved tokenResponse /\
     ok tokenResponse = true /\
     net (sent (afterExchange c sid (this c))) (jwtRequest c (text tokenResponse))
     = Resolved checkJwtResponse /\
     ok checkJwtResponse = true /\
     accessToken (this c') = Val (text tokenResponse) /\
     sessionId (this c') = parseSessionId (set_cookie checkJwtResponse)).
Proof.
  intros r c' login. subst r c'. rewrite (getAccessToken_steps net c).
  fold login. split; [|split; [|split; [|split]]].
  - intros e. destruct login as [sid|e0]; [|reflexivity].
    destruct (net _ (exchangeRequest c sid)) as [e1|tr]; [reflexivity|].
    destruct (ok tr); [|reflexivity]. simpl.
    destruct (net _ (jwtRequest c (text tr))) as [e2|jr]; [reflexivity|].
    destruct (ok jr); [discriminate|reflexivity].
  - intros e Hl. rewrite Hl. split; reflexivity.
  - intros sid e Hl Ht. rewrite Hl, Ht. split; reflexivity.
  - intros sid tr Hl Ht. rewrite Hl, Ht.
    destruct (ok tr); [|split; reflexivity]. simpl.
    destruct (net _ (jwtRequest c (text tr))) as [e2|jr]; [reflexivity|].
    destruct (ok jr); reflexivity.
  - destruct login as [sid|e0]; [|discriminate].
    destruct (net _ (exchangeRequest c sid)) as [e1|tr] eqn:Et; [discriminate|].
    destruct (ok tr) eqn:Hok; [|discriminate]. simpl.
    destruct (net _ (jwtRequest c (text tr))) as [e2|jr] eqn:Ej; [discriminate|].
    destruct (ok jr) eqn:Hj; [|discriminate].
    intros _. exists sid, tr, jr. repeat split; assumption.
Qed.

(** The gateway rejects a fresh token: the call throws and keeps the old
    cookie. *)
Lemma getAccessToken_secrets_witness :
  fst (getAccessToken net_jwt_rejected staleClient) = Throw tokenError /\
  sessionId (this (snd (getAccessToken net_jwt_rejected staleClient)))
  = Val "oldcookie".
Proof.
  split; [reflexivity|].
  destruct (getAccessToken_secrets net_jwt_rejected staleClient) as [H _].
  apply (H tokenError). reflexivity.
Defined.

(** C1 as stated fails: with the login and the token exchange accepted and
    the token rejected by the gateway, the call throws and the stored
    bearer token is no longer the one held before the call. *)
Lemma getAccessToken_partial_failure_replaces_token :
  fst (getAccessToken net_jwt_rejected staleClient) = Throw tokenError /\
  accessToken (this staleClient) = Val "OLDTOKEN" /\
  accessToken (this (snd (getAccessToken net_jwt_rejected staleClient)))
  = Val "NEWTOKEN" /\
  accessToken (this (snd (getAccessToken net_jwt_rejected staleClient)))
  <> accessToken (this staleClient).
Proof.
  split; [reflexivity|]. split; [reflexivity|]. split; [reflexivity|].
  discriminate.
Qed.

(** ** The pattern [/sessionId=(.*?);/] *)

Lemma append_cons (c : Ascii.ascii) (s t : string) :
  (String c s ++ t)%string = String c (s ++ t).
Proof. reflexivity. Qed.

Lemma append_nil (t : string) : (EmptyString ++ t)%string = t.
Proof. reflexivity. Qed.

Lemma stripPrefix_sound (p s t : string) :
  stripPrefix p s = Some t -> s = (p ++ t)%string.
Proof.
  revert s. induction p as [|a p IH]; intros s H; simpl in H.
  - injection H as ->. reflexivity.
  - destruct s as [|b s]; [discriminate|].
    case_bool_decide; [|discriminate]. subst b.
    rewrite append_cons. f_equal. by apply IH.
Qed.

Lemma stripPrefix_app (p t : string) : stripPrefix p (p ++ t) = Some t.
Proof.
  induction p as [|a p IH]; [by destruct t|].
  rewrite append_cons. simpl. by rewrite bool_decide_eq_true_2.
Qed.

(** What the lazy group captures is followed by a semicolon and holds
    neither a semicolon nor a line terminator. *)
Lemma lazyUntilSemicolon_sound (s v : string) :
  lazyUntilSemicolon s = Some v ->
  (exists post, s = (v ++ ";" ++ post)%string) /\
  noSemicolon v = true /\ noLineTerminator v = true.
Proof.
  revert v. induction s as [|c s IH]; intros v H; simpl in H; [discriminate|].
  case_bool_decide as Hc.
  - injection H as <-. subst c. split; [by exists s|done].
  - destruct (isLineTerminator c) eqn:Hl; [discriminate|].
    destruct (lazyUntilSemicolon s) as [v'|]; [|discriminate].
    injection H as <-. destruct (IH v' eq_refl) as ((post & ->) & Hs & Hn).
    split; [by exists post|]. simpl. rewrite Hs, Hn, Hl.
    by rewrite bool_decide_eq_false_2.
Qed.

Lemma lazyUntilSemicolon_complete (v post : string) :
  noLineTerminator v = true ->
  is_Some (lazyUntilSemicolon (v ++ ";" ++ post)).
Proof.
  induction v as [|c v IH]; intros Hn.
  - rewrite append_nil. simpl. eauto.
  - rewrite append_cons. simpl in *. apply andb_true_iff in Hn as [Hc Hn].
    apply negb_true_iff in Hc. rewrite Hc.
    case_bool_decide; [eauto|].
    destruct (IH Hn) as [w ->]. simpl. eauto.
Qed.

(** A match of the pattern is an occurrence of [sessionId=], the captured
    value and a semicolon. *)
Lemma matchSessionId_sound (s v : string) :
  matchSessionId s = Some v ->
  (exists pre post, s = (pre ++ "sessionId=" ++ v ++ ";" ++ post)%string) /\
  noSemicolon v = true /\ noLineTerminator v = true.
Proof.
  induction s as [|c s IH]; intros H.
  - simpl in H. discriminate.
  - cbn [matchSessionId] in H.
    destruct (stripPrefix "sessionId=" (String c s) ≫= lazyUntilSemicolon)
      as [w|] eqn:E.
    + injection H as ->.
      destruct (stripPrefix "sessionId=" (String c s)) as [t|] eqn:Et;
        [|discriminate].
      simpl in E. apply stripPrefix_sound in Et.
      destruct (lazyUntilSemicolon_sound _ _ E) as ((post & ->) & Hs & Hn).
      split; [|done]. exists EmptyString, post. by rewrite Et.
    + destruct (IH H) as ((pre & post & ->) & Hs & Hn).
      split; [|done]. by exists (String c pre), post.
Qed.

(** The pattern matches exactly the strings that hold [sessionId=], then
    characters other than line terminators, then a semicolon. *)
Lemma matchSessionId_matches (s : string) :
  is_Some (matchSessionId s) <->
  exists pre v post,
    s = (pre ++ "sessionId=" ++ v ++ ";" ++ post)%string /\
    noLineTerminator v = true.
Proof.
  split.
  - intros [v Hv]. destruct (matchSessionId_sound s v Hv) as ((pre & post & ->) & _ & Hn).
    by exists pre, v, post.
  - intros (pre & v & post & -> & Hn).
    induction pre as [|c pre IH].
    + rewrite append_nil.
      destruct (String.append "sessionId=" (v ++ ";" ++ post)) as [|c r] eqn:E;
        [discriminate|].
      cbn [matchSessionId]. rewrite <- E, stripPrefix_app. simpl.
      destruct (lazyUntilSemicolon_complete v post Hn) as [w ->]. eauto.
    + rewrite append_cons. cbn [matchSessionId].
      destruct (_ ≫= lazyUntilSemicolon); [eauto|exact IH].
Qed.

Example matchSessionId_cookie :
  matchSessionId "sessionId=abc123; Path=/; HttpOnly" = Some "abc123".
Proof. reflexivity. Qed.

Example matchSessionId_inside :
  matchSessionId "lang=en; sessionId=x9; Secure" = Some "x9".
Proof. reflexivity. Qed.

Example matchSessionId_unterminated : matchSessionId "sessionId=abc123" = None.
Proof. reflexivity. Qed.

Example matchSessionId_other_cookie : matchSessionId "token=abc123; Path=/" = None.
Proof. reflexivity. Qed.

(** ** The third step of [getAccessToken] *)

(** C7, as the code has it.  When the first two steps succeed and the
    gateway answers the JWT check: a non-2xx answer makes the call throw
    the token error; a 2xx answer never does, and the stored session id
    becomes what the pattern extracts from the [Set-Cookie] header, which
    is [undefined] when the header is absent or does not match. *)
Theorem getAccessToken_check_jwt (net : Network) (c : Client)
    (sid : string) (tokenResponse checkJwtResponse : Response) :
  fst (getEnphaseSessionId net (username (this c)) (password (this c)) c) = Ok sid ->
  net (sent (afterLogin c)) (exchangeRequest c sid) = Resolved tokenResponse ->
  ok tokenResponse = true ->
  net (sent (afterExchange c sid (this c))) (jwtRequest c (text tokenResponse))
  = Resolved checkJwtResponse ->
  let r := fst (getAccessToken net c) in
  let c' := snd (getAccessToken net c) in
  (ok checkJwtResponse = false -> r = Throw tokenError) /\
  (ok checkJwtResponse = true ->
     r = Ok tt /\
     sessionId (this c') = parseSessionId (set_cookie checkJwtResponse) /\
     (set_cookie checkJwtResponse ≫= matchSessionId = None ->
      sessionId (this c') = Undefined)).
Proof.
  intros Hl Ht Hok Hj r c'. subst r c'.
  rewrite (getAccessToken_steps net c), Hl, Ht, Hok. simpl.
  unfold afterExchange in Hj. simpl in Hj. unfold afterExchange. simpl.
  rewrite Hj. split; intros Hc; rewrite Hc; [reflexivity|].
  repeat split. simpl. intros Hm. unfold parseSessionId. rewrite Hm. reflexivity.
Qed.

(** A gateway that accepts the token and sets no cookie: the call returns
    normally and the stored session id is [undefined]. *)
Lemma getAccessToken_check_jwt_witness :
  fst (getAccessToken net_no_cookie staleClient) = Ok tt /\
  sessionId (this (snd (getAccessToken net_no_cookie staleClient))) = Undefined.
Proof.
  destruct (getAccessToken_check_jwt net_no_cookie staleClient "S1"
              (mkResponse 200 None "NEWTOKEN" None)
              (mkResponse 200 None "valid token" None)
              eq_refl eq_refl eq_refl eq_refl) as [_ H].
  destruct (H eq_refl) as (Hr & _ & Hs).
  split; [exact Hr|]. apply Hs. reflexivity.
Defined.

(** C7 as stated fails: the gateway accepts the token with a response that
    has no [Set-Cookie] header, and [getAccessToken] returns normally,
    leaving [undefined] as the session id. *)
Lemma getAccessToken_missing_cookie_no_error :
  let checkJwtResponse := mkResponse 200 None "valid token" None in
  net_no_cookie (sent (afterExchange staleClient "S1" (this staleClient)))
                (jwtRequest staleClient "NEWTOKEN")
  = Resolved checkJwtResponse /\
  ok checkJwtResponse = true /\
  set_cookie checkJwtResponse = None /\
  fst (getAccessToken net_no_cookie staleClient) = Ok tt /\
  sessionId (this (snd (getAccessToken net_no_cookie staleClient))) = Undefined.
Proof. repeat split. Qed.

(** ** [fetchApiEndpoint]: the recursion and the single retry *)

Section FetchFacts.

Variable net : Network.

(** A call with [isRetry] set never reaches its recursive call. *)
Lemma fetchApiEndpoint_body_retry self path c :
  fetchApiEndpoint_body net self path true c =
  match address (this c) with
  | None => (Throw uninitialisedError, c)
  | Some _ => singleAttempt net path c
  end.
Proof.
  unfold fetchApiEndpoint_body, singleAttempt, afterRequest. run_monad.
  destruct (address (this c)); [|reflexivity].
  destruct (net _ _) as [e|r]; [reflexivity|].
  rewrite andb_false_r. simpl. destruct (ok r); reflexivity.
Qed.

Lemma fetchApiEndpoint_body_ext self1 self2 path isRetry c :
  (forall p c', self1 p true c' = self2 p true c') ->
  fetchApiEndpoint_body net self1 path isRetry c
  = fetchApiEndpoint_body net self2 path isRetry c.
Proof.
  intros H. unfold fetchApiEndpoint_body. run_monad.
  destruct (address (this c)); [|reflexivity].
  destruct (net _ _) as [e|r]; [reflexivity|].
  destruct (isClientError r && negb isRetry); [|reflexivity].
  destruct (getAccessToken net _) as [[[]|e] c2]; [apply H|reflexivity].
Qed.

(** Two levels of recursion are all the method uses: more fuel changes
    nothing. *)
Lemma fetchApiEndpoint_fuel_enough n path isRetry c :
  fetchApiEndpoint_fuel net (2 + n) path isRetry c
  = fetchApiEndpoint net path isRetry c.
Proof.
  unfold fetchApiEndpoint.
  change (fetchApiEndpoint_body net (fetchApiEndpoint_fuel net (S n)) path isRetry c
          = fetchApiEndpoint_body net (fetchApiEndpoint_fuel net 1) path isRetry c).
  apply fetchApiEndpoint_body_ext. intros p c'. simpl.
  rewrite !fetchApiEndpoint_body_retry. reflexivity.
Qed.

(** [fetchApiEndpoint] satisfies the recursive equation of the source. *)
Lemma fetchApiEndpoint_unfold path isRetry c :
  fetchApiEndpoint net path isRetry c
  = fetchApiEndpoint_body net (fetchApiEndpoint net) path isRetry c.
Proof.
  rewrite <- (fetchApiEndpoint_fuel_enough 1). simpl.
  apply fetchApiEndpoint_body_ext. intros p c'. reflexivity.
Qed.

Lemma fetchApiEndpoint_retry path c :
  fetchApiEndpoint net path true c =
  match address (this c) with
  | None => (Throw uninitialisedError, c)
  | Some _ => singleAttempt net path c
  end.
Proof. rewrite fetchApiEndpoint_unfold. apply fetchApiEndpoint_body_retry. Qed.

(** One call of [fetchApiEndpoint], run. *)
Lemma fetchApiEndpoint_run path isRetry c :
  fetchApiEndpoint net path isRetry c =
  match address (this c) with
  | None => (Throw uninitialisedError, c)
  | Some _ =>
      match net (sent c)
              (gatewayRequest (address (this c)) path (sessionId (this c))) with
      | Rejected e => (Throw e, afterRequest c path)
      | Resolved r =>
          if isClientError r && negb isRetry then
            match getAccessToken net (afterRequest c path) with
            | (Ok _, c2) => fetchApiEndpoint net path true c2
            | (Throw e, c2) => (Throw e, c2)
            end
          else if ok r then (Ok r, afterRequest c path)
          else (Throw (fetchError r (this c)), afterRequest c path)
      end
  end.
Proof.
  rewrite fetchApiEndpoint_unfold. unfold fetchApiEndpoint_body, afterRequest.
  run_monad.
  destruct (address (this c)); [|reflexivity].
  destruct (net _ _) as [e|r]; [reflexivity|].
  destruct (isClientError r && negb isRetry).
  - destruct (getAccessToken net _) as [[[]|e] c2]; reflexivity.
  - destruct (ok r); reflexivity.
Qed.

(** [getAccessToken] changes the two secrets only. *)
Lemma getAccessToken_keeps c :
  let self' := this (snd (getAccessToken net c)) in
  address self' = address (this c) /\ deviceSn self' = deviceSn (this c) /\
  username self' = username (this c) /\ password self' = password (this c).
Proof.
  rewrite getAccessToken_steps.
  destruct (fst (getEnphaseSessionId net _ _ c)) as [sid|e]; [|by repeat split].
  destruct (net _ (exchangeRequest c sid)) as [e|tr]; [by repeat split|].
  destruct (ok tr); [|by repeat split]. simpl.
  destruct (net _ (jwtRequest c (text tr))) as [e|jr]; [by repeat split|].
  destruct (ok jr); by repeat split.
Qed.

End FetchFacts.

Lemma append_nonempty (s t : string) :
  t <> EmptyString -> (s ++ t)%string <> EmptyString.
Proof.
  intros Ht E. destruct s; cbv beta iota fix delta [String.append] in E;
    [congruence|discriminate].
Qed.

Lemma lastChar_app (s t : string) :
  t <> EmptyString -> lastChar (s ++ t) = lastChar t.
Proof.
  intros Ht. induction s as [|c s IH]; [reflexivity|].
  change (lastChar (String c (s ++ t)) = lastChar t).
  pose proof (append_nonempty s t Ht) as Hne.
  simpl. destruct (s ++ t)%string; [congruence|exact IH].
Qed.

Lemma check_jwt_url_not_login (a : option string) :
  gatewayUrl a "auth/check_jwt" <> LOGIN_URL.
Proof.
  intros H. apply (f_equal lastChar) in H. unfold gatewayUrl in H.
  rewrite lastChar_app in H by (apply append_nonempty; discriminate).
  rewrite lastChar_app in H by discriminate.
  vm_compute in H. discriminate.
Qed.

Section RetryFacts.

Variable net : Network.

Lemma countRequests_app p (l1 l2 : list Request) :
  countRequests p (l1 ++ l2) = (countRequests p l1 + countRequests p l2)%nat.
Proof. unfold countRequests. rewrite List.filter_app, length_app. reflexivity. Qed.

Lemma countRequests_cons p (x : Request) (l : list Request) :
  countRequests p (x :: l)
  = ((if p x then 1 else 0) + countRequests p l)%nat.
Proof. unfold countRequests. simpl. destruct (p x); reflexivity. Qed.

Lemma sentBetween_app c c' (l : list Request) :
  sent c' = (sent c ++ l)%list -> sentBetween c c' = l.
Proof. intros H. unfold sentBetween. rewrite H. apply drop_app_length. Qed.

(** What one run of [getAccessToken] sends: the login request, then
    requests that are neither a login nor a [GET]. *)
Lemma getAccessToken_trace c :
  exists rest,
    sent (snd (getAccessToken net c))
    = (sent c ++ loginRequest (username (this c)) (password (this c)) :: rest)%list /\
    countRequests isLoginRequest rest = 0%nat /\
    forall a p, countRequests (isGatewayGet a p) rest = 0%nat.
Proof.
  assert (Hj : forall t, isLoginRequest (jwtRequest c t) = false).
  { intros t. unfold isLoginRequest. simpl. apply bool_decide_eq_false.
    apply check_jwt_url_not_login. }
  rewrite getAccessToken_steps.
  destruct (fst (getEnphaseSessionId net _ _ c)) as [sid|e];
    [|by exists []].
  destruct (net _ (exchangeRequest c sid)) as [e|tr];
    [|destruct (ok tr)];
    try (exists [exchangeRequest c sid]; simpl;
         by rewrite <- ?app_assoc).
  simpl.
  destruct (net _ (jwtRequest c (text tr))) as [e|jr];
    [|destruct (ok jr)];
    (exists [exchangeRequest c sid; jwtRequest c (text tr)]; simpl;
     rewrite <- ?app_assoc; split; [reflexivity|];
     split; [unfold countRequests; simpl; by rewrite Hj|done]).
Qed.

Lemma singleAttempt_sent path c :
  sent (snd (singleAttempt net path c))
  = (sent c ++ [gatewayRequest (address (this c)) path (sessionId (this c))])%list.
Proof.
  unfold singleAttempt. destruct (net _ _) as [e|r]; [reflexivity|].
  destruct (ok r); reflexivity.
Qed.

Lemma isGatewayGet_gatewayRequest a path s :
  isGatewayGet a path (gatewayRequest a path s) = true.
Proof. unfold isGatewayGet. simpl. by apply bool_decide_eq_true. Qed.

End RetryFacts.

(** A request that the gateway accepts at once, and one that it accepts
    after a re-authentication, with the new cookie. *)
Example fetchApiEndpoint_accepted :
  fetchApiEndpoint (scripted [metersOk]) "ivp/meters" false staleClient
  = (Ok (mkResponse 200 None "[...]" (Some (JsonMeters twoMeters))),
     afterRequest staleClient "ivp/meters").
Proof. reflexivity. Qed.

Example fetchApiEndpoint_reauthenticated :
  let outcome :=
    fetchApiEndpoint
      (scripted [respond 401 None "unauthorized" None; loginOk; tokenOk;
                 respond 200 (Some "sessionId=abc123; Path=/; HttpOnly")
                   "valid token" None;
                 metersOk])
      "ivp/meters" false staleClient in
  fst outcome = Ok (mkResponse 200 None "[...]" (Some (JsonMeters twoMeters))) /\
  sessionId (this (snd outcome)) = Val "abc123" /\
  last (sent (snd outcome))
  = Some (gatewayRequest (Some "192.168.1.20") "ivp/meters" (Val "abc123")).
Proof. repeat split. Qed.

(** C2, as the code has it.  When the gateway answers the first request
    of [fetchApiEndpoint path] with a status in 400..499, [getAccessToken]
    runs exactly once.  If it throws, its error is the outcome of the call
    and the request is not retried.  If it returns, the request is sent
    exactly once more, and that attempt decides: a 2xx response is
    returned, any other makes the call throw, with no further request
    either way. *)
Theorem fetchApiEndpoint_client_error (net : Network) (path : string)
    (c : Client) (a : string) (response : Response) :
  address (this c) = Some a ->
  net (sent c) (gatewayRequest (address (this c)) path (sessionId (this c)))
  = Resolved response ->
  isClientError response = true ->
  let auth := getAccessToken net (afterRequest c path) in
  let new := sentBetween c (snd (fetchApiEndpoint net path false c)) in
  fetchApiEndpoint net path false c
  = match auth with
    | (Ok _, c2) => singleAttempt net path c2
    | (Throw e, c2) => (Throw e, c2)
    end /\
  countRequests isLoginRequest new = 1%nat /\
  countRequests (isGatewayGet (address (this c)) path) new
  = match fst auth with Ok _ => 2%nat | Throw _ => 1%nat end.
Proof.
  intros Ha Hnet H4xx auth new.
  assert (Heq : fetchApiEndpoint net path false c
                = match auth with
                  | (Ok _, c2) => singleAttempt net path c2
                  | (Throw e, c2) => (Throw e, c2)
                  end).
  { rewrite fetchApiEndpoint_unfold. unfold fetchApiEndpoint_body.
    subst auth. unfold afterRequest.
    unfold bind at 1, get at 1. rewrite Ha in Hnet |- *.
    unfold bind at 1, fetch at 1. rewrite Hnet, H4xx. simpl. unfold bind at 1.
    pose proof (getAccessToken_keeps net
                  (mkClient (this c)
                     (sent c ++ [gatewayRequest (Some a) path
                                   (sessionId (this c))]))) as (Hk & _).
    destruct (getAccessToken net _) as [[[]|e] c2]; [|reflexivity].
    rewrite fetchApiEndpoint_retry. simpl in Hk. rewrite Hk, Ha. reflexivity. }
  split; [exact Heq|].
  subst new. rewrite Heq. clear Heq.
  destruct (getAccessToken_trace net (afterRequest c path)) as (rest & Hs & Hl & Hg).
  pose proof (getAccessToken_keeps net (afterRequest c path)) as (Hk & _).
  fold auth in Hs, Hk. simpl in Hk, Hs.
  set (req := gatewayRequest (address (this c)) path (sessionId (this c))) in *.
  set (login := loginRequest (username (this c)) (password (this c))) in *.
  assert (Hreq_l : isLoginRequest req = false) by reflexivity.
  assert (Hreq_g : isGatewayGet (address (this c)) path req = true)
    by apply isGatewayGet_gatewayRequest.
  assert (Hlogin_l : isLoginRequest login = true) by reflexivity.
  assert (Hlogin_g : isGatewayGet (address (this c)) path login = false)
    by reflexivity.
  assert (Hnil : forall p, countRequests p [] = 0%nat) by reflexivity.
  destruct auth as [[[]|e] c2]; simpl in *.
  - pose proof (singleAttempt_sent net path c2) as Hr.
    rewrite Hs, Hk in Hr.
    erewrite sentBetween_app
      by (rewrite Hr, <- !app_assoc; reflexivity).
    repeat (rewrite countRequests_app || rewrite countRequests_cons).
    rewrite Hl, Hg, Hreq_l, Hreq_g, Hlogin_l, Hlogin_g, !Hnil.
    rewrite isGatewayGet_gatewayRequest. split; reflexivity.
  - erewrite sentBetween_app by (rewrite Hs, <- !app_assoc; reflexivity).
    repeat (rewrite countRequests_app || rewrite countRequests_cons).
    rewrite Hl, Hg, Hreq_l, Hreq_g, Hlogin_l, Hlogin_g, !Hnil.
    split; reflexivity.
Qed.

(** A gateway that answers 401 before and after a successful
    re-authentication: one login, two requests for the endpoint, and the
    call throws. *)
Lemma fetchApiEndpoint_client_error_witness :
  let c' := snd (fetchApiEndpoint net_always_401 "ivp/meters" false staleClient) in
  countRequests isLoginRequest (sentBetween staleClient c') = 1%nat /\
  countRequests (isGatewayGet (Some "192.168.1.20") "ivp/meters")
                (sentBetween staleClient c') = 2%nat.
Proof.
  destruct (fetchApiEndpoint_client_error net_always_401 "ivp/meters" staleClient
              "192.168.1.20" (mkResponse 401 None "unauthorized" None)
              eq_refl eq_refl eq_refl) as (_ & H1 & H2).
  split; [exact H1|exact H2].
Defined.

(** C2 as stated fails: the gateway answers the first request with a 401
    and then rejects the fresh token in the JWT check; [getAccessToken]
    throws, and the request is not sent a second time. *)
Lemma fetchApiEndpoint_no_retry_after_failed_auth :
  let first := mkResponse 401 None "unauthorized" None in
  let outcome :=
    fetchApiEndpoint net_expired_jwt_rejected "ivp/meters" false staleClient in
  net_expired_jwt_rejected (sent staleClient)
    (gatewayRequest (Some "192.168.1.20") "ivp/meters" (Val "oldcookie"))
  = Resolved first /\
  isClientError first = true /\
  fst outcome = Throw tokenError /\
  countRequests isLoginRequest (sentBetween staleClient (snd outcome)) = 1%nat /\
  countRequests (isGatewayGet (Some "192.168.1.20") "ivp/meters")
                (sentBetween staleClient (snd outcome)) = 1%nat.
Proof. repeat split. Qed.

(** ** The poll *)

Ltac run_poll :=
  unfold callApi, homey_log, setCapabilityValue, setAvailable, setUnavailable,
    onHomey in *;
  run_monad.

Section PollFacts.

Variable net : Network.

Lemma unmeteredBranch_run productionData s :
  unmeteredBranch productionData s =
  match production productionData with
  | entry :: _ =>
      (Ok tt, mkRunning (api s) (unmeteredReported (wNow entry) (platform s)))
  | [] => (Throw wNowError, s)
  end.
Proof.
  unfold unmeteredBranch. run_poll.
  destruct (production productionData); reflexivity.
Qed.

Lemma meteredBranch_run meterData s :
  meteredBranch net meterData s =
  match getMeterReadings net (api s) with
  | (Throw e, c) => (Throw e, mkRunning c (platform s))
  | (Ok readings, c) =>
      match productionPower meterData readings,
            gridConsumptionPower meterData readings with
      | Some p, Some g =>
          (Ok tt, mkRunning c (meteredReported p g (platform s)))
      | _, _ => (Ok tt, mkRunning c (log_ (LogText JOIN_DIAGNOSTIC) (platform s)))
      end
  end.
Proof.
  unfold meteredBranch. run_poll.
  destruct (getMeterReadings net (api s)) as [[readings|e] c]; [|reflexivity].
  destruct (productionPower meterData readings);
    destruct (gridConsumptionPower meterData readings); reflexivity.
Qed.

(** The statements from line 116 on, in unmetered mode. *)
Lemma reportReadings_unmetered meterData isMetered s :
  truthy isMetered = false ->
  reportReadings net meterData isMetered s =
  match getProductionData net (api s) with
  | (Throw e, c) => (Throw e, mkRunning c (platform s))
  | (Ok productionData, c) =>
      let h := energyReported productionData (platform s) in
      match production productionData with
      | entry :: _ =>
          (Ok tt, mkRunning c (setAvailable_ (unmeteredReported (wNow entry) h)))
      | [] => (Throw wNowError, mkRunning c h)
      end
  end.
Proof.
  intros Hm. unfold reportReadings. rewrite Hm. simpl negb. cbv iota.
  unfold bind at 1. unfold callApi at 1.
  destruct (getProductionData net (api s)) as [[pd|e] c]; [|reflexivity].
  unfold bind at 1. unfold homey_log at 1, onHomey at 1, modify at 1.
  unfold bind at 1. unfold setCapabilityValue at 1, onHomey at 1, modify at 1.
  unfold bind at 1. unfold homey_log at 1, onHomey at 1, modify at 1.
  unfold bind at 1. rewrite unmeteredBranch_run. simpl.
  destruct (production pd); reflexivity.
Qed.

(** The same statements in metered mode. *)
Lemma reportReadings_metered meterData isMetered s :
  truthy isMetered = true ->
  reportReadings net meterData isMetered s =
  match getProductionData net (api s) with
  | (Throw e, c) => (Throw e, mkRunning c (platform s))
  | (Ok productionData, c) =>
      let h := energyReported productionData (platform s) in
      match getMeterReadings net c with
      | (Throw e, c') => (Throw e, mkRunning c' h)
      | (Ok readings, c') =>
          match productionPower meterData readings,
                gridConsumptionPower meterData readings with
          | Some p, Some g =>
              (Ok tt, mkRunning c' (setAvailable_ (meteredReported p g h)))
          | _, _ =>
              (Ok tt,
               mkRunning c' (setAvailable_ (log_ (LogText JOIN_DIAGNOSTIC) h)))
          end
      end
  end.
Proof.
  intros Hm. unfold reportReadings. rewrite Hm. simpl negb. cbv iota.
  unfold bind at 1. unfold callApi at 1.
  destruct (getProductionData net (api s)) as [[pd|e] c]; [|reflexivity].
  unfold bind at 1. unfold homey_log at 1, onHomey at 1, modify at 1.
  unfold bind at 1. unfold setCapabilityValue at 1, onHomey at 1, modify at 1.
  unfold bind at 1. unfold homey_log at 1, onHomey at 1, modify at 1.
  unfold bind at 1, ret at 1. unfold bind at 1.
  rewrite meteredBranch_run. simpl.
  destruct (getMeterReadings net c) as [[readings|e] c']; [|reflexivity].
  destruct (productionPower meterData readings);
    destruct (gridConsumptionPower meterData readings); reflexivity.
Qed.

(** The [try] block of [checkProduction], run. *)
Lemma checkProduction_try_run c h :
  checkProduction_try net (mkRunning c h) =
  match getMeters net c with
  | (Throw e, c1) => (Throw e, mkRunning c1 h)
  | (Ok meterData, c1) =>
      let h1 := log_ (LogMeters meterData) h in
      match getProductionData net c1 with
      | (Throw e, c2) => (Throw e, mkRunning c2 h1)
      | (Ok productionData, c2) =>
          let h2 := energyReported productionData h1 in
          match production productionData with
          | entry :: _ =>
              (Ok tt,
               mkRunning c2 (setAvailable_ (unmeteredReported (wNow entry) h2)))
          | [] => (Throw wNowError, mkRunning c2 h2)
          end
      end
  end.
Proof.
  unfold checkProduction_try. unfold bind at 1. unfold callApi at 1. simpl.
  destruct (getMeters net c) as [[md|e] c1]; [|reflexivity].
  unfold bind at 1. unfold homey_log at 1, onHomey at 1, modify at 1.
  rewrite reportReadings_unmetered by reflexivity. reflexivity.
Qed.

End PollFacts.

(** ** The requests of a poll *)

Lemma append_inv_head (s t1 t2 : string) :
  (s ++ t1)%string = (s ++ t2)%string -> t1 = t2.
Proof.
  induction s as [|ch s IH]; cbv beta iota fix delta [String.append];
    fold String.append; intros H; [exact H|].
  injection H as H. exact (IH H).
Qed.

Lemma gatewayUrl_inj (a : option string) (p q : string) :
  gatewayUrl a p = gatewayUrl a q -> p = q.
Proof.
  unfold gatewayUrl. intros H.
  do 3 apply append_inv_head in H. exact H.
Qed.

Section PollRequests.

Variable net : Network.

(** The requests of one call of [fetchApiEndpoint path]: none of them
    is a [GET] of another gateway endpoint, and the address is kept. *)
Lemma fetchApiEndpoint_requests path isRetry c :
  let c' := snd (fetchApiEndpoint net path isRetry c) in
  address (this c') = address (this c) /\
  exists l : list Request,
    sent c' = (sent c ++ l)%list /\
    forall q, q <> path ->
      countRequests (isGatewayGet (address (this c)) q) l = 0%nat.
Proof.
  cbv zeta.
  assert (Hother : forall q s, q <> path ->
            isGatewayGet (address (this c)) q
              (gatewayRequest (address (this c)) path s) = false).
  { intros q s Hq. unfold isGatewayGet. simpl. apply bool_decide_eq_false.
    intros H. apply gatewayUrl_inj in H. congruence. }
  assert (Hone : forall q, q <> path ->
            countRequests (isGatewayGet (address (this c)) q)
              [gatewayRequest (address (this c)) path (sessionId (this c))]
            = 0%nat).
  { intros q Hq. unfold countRequests. simpl. by rewrite Hother. }
  rewrite fetchApiEndpoint_run.
  destruct (address (this c)) as [a|] eqn:Ea.
  2:{ split; [exact Ea|]. exists []. split; [by rewrite app_nil_r|done]. }
  rewrite <- Ea in *.
  set (req := gatewayRequest (address (this c)) path (sessionId (this c))) in *.
  destruct (net (sent c) req) as [e|r].
  { split; [reflexivity|]. by exists [req]. }
  destruct (isClientError r && negb isRetry).
  2:{ destruct (ok r); (split; [reflexivity|]); by exists [req]. }
  pose proof (getAccessToken_keeps net (afterRequest c path)) as (Hk & _).
  destruct (getAccessToken_trace net (afterRequest c path))
    as (rest & Hs & _ & Hg).
  simpl in Hk, Hs. fold req in Hs.
  destruct (getAccessToken net _) as [[[]|e] c2]; simpl in Hk, Hs.
  - assert (Hsa : fetchApiEndpoint net path true c2 = singleAttempt net path c2)
      by (rewrite fetchApiEndpoint_retry, Hk, Ea; reflexivity).
    rewrite Hsa.
    pose proof (singleAttempt_sent net path c2) as Hr.
    assert (Ha2 : address (this (snd (singleAttempt net path c2)))
                  = address (this c)).
    { unfold singleAttempt. destruct (net _ _) as [e|r2]; [exact Hk|].
      destruct (ok r2); exact Hk. }
    split; [exact Ha2|].
    eexists. split; [rewrite Hr, Hs, <- !app_assoc; reflexivity|].
    intros q Hq.
    repeat (rewrite countRequests_app || rewrite countRequests_cons).
    rewrite Hg, Hk. subst req. rewrite !Hother by done. reflexivity.
  - simpl. split; [exact Hk|].
    eexists. split; [rewrite Hs, <- !app_assoc; reflexivity|].
    intros q Hq.
    repeat (rewrite countRequests_app || rewrite countRequests_cons).
    rewrite Hg. subst req. rewrite !Hother by done. reflexivity.
Qed.

Lemma parsed_client {A} (as_type : Json -> option A) r c :
  snd (parsed as_type r c) = c.
Proof. unfold parsed. destruct (json r ≫= as_type); reflexivity. Qed.

(** A getter sends what its [fetchApiEndpoint] call sends. *)
Lemma getter_requests {A} (as_type : Json -> option A) path c :
  let c' := snd ((response <- fetchApiEndpoint net path false ;;
                  parsed as_type response) c) in
  address (this c') = address (this c) /\
  exists l : list Request,
    sent c' = (sent c ++ l)%list /\
    forall q, q <> path ->
      countRequests (isGatewayGet (address (this c)) q) l = 0%nat.
Proof.
  pose proof (fetchApiEndpoint_requests path false c) as H.
  unfold bind. destruct (fetchApiEndpoint net path false c) as [[r|e] c1];
    simpl in *; [|exact H].
  rewrite parsed_client. exact H.
Qed.

End PollRequests.

(** ** The metering decision *)

Lemma includes_meter_types (t : string) :
  includes [NET_CONSUMPTION_METER; PRODUCTION_METER] t = true
  <-> t = NET_CONSUMPTION_METER \/ t = PRODUCTION_METER.
Proof.
  unfold includes. rewrite bool_decide_eq_true.
  rewrite !elem_of_cons, elem_of_nil. tauto.
Qed.

(** C4.  The value computed for [isMetered] before the override is [true]
    exactly when the meter list is not empty and every entry's
    measurement type is net-consumption or production.  It is [true] for
    a production and a net-consumption meter, [false] for a single meter
    of another type, and the falsy [0] for the empty list. *)
Theorem isMetered_computed_spec (meterData : list Meter) :
  (isMetered_computed meterData = JsBoolean true
   <-> meterData <> [] /\ Forall isMeterType meterData) /\
  (truthy (isMetered_computed meterData) = true
   <-> meterData <> [] /\ Forall isMeterType meterData) /\
  (forall e1 e2,
     isMetered_computed [mkMeter e1 "production"; mkMeter e2 "net-consumption"]
     = JsBoolean true) /\
  (forall e, isMetered_computed [mkMeter e "other"] = JsBoolean false) /\
  isMetered_computed [] = JsNumber 0 /\
  truthy (isMetered_computed []) = false.
Proof.
  assert (Hall : forallb
            (fun t => includes [NET_CONSUMPTION_METER; PRODUCTION_METER] t)
            (map measurementType meterData) = true
          <-> Forall isMeterType meterData).
  { rewrite forallb_forall, Forall_forall. split.
    - intros H m Hm. apply includes_meter_types, H, in_map_iff.
      exists m. split; [reflexivity|]. by apply list_elem_of_In.
    - intros H t Ht. apply in_map_iff in Ht as (m & <- & Hm).
      apply includes_meter_types, H. by apply list_elem_of_In. }
  split; [|split; [|split; [|split; [|split]]]]; try reflexivity.
  - unfold isMetered_computed, js_and. destruct meterData as [|m l].
    + simpl. split; [discriminate|by intros [? _]].
    + replace (truthy (JsNumber (Z.of_nat (length (m :: l))))) with true
        by (simpl length; unfold truthy; symmetry;
            apply negb_true_iff, Z.eqb_neq; lia).
      split.
      * intros H. injection H as H. split; [done|by apply Hall].
      * intros [_ H]. f_equal. by apply Hall.
  - unfold isMetered_computed, js_and. destruct meterData as [|m l].
    + simpl. split; [discriminate|by intros [? _]].
    + replace (truthy (JsNumber (Z.of_nat (length (m :: l))))) with true
        by (simpl length; unfold truthy; symmetry;
            apply negb_true_iff, Z.eqb_neq; lia).
      split.
      * intros H. split; [done|by apply Hall].
      * intros [_ H]. by apply Hall.
Qed.

(** ** What a poll leaves behind *)

Section PollOutcome.

Variable net : Network.

(** [checkProduction] on a discovered device, by the outcome of its
    [try] block. *)
Lemma checkProduction_run device client :
  enphaseApi device = Some client ->
  checkProduction net device =
  match checkProduction_try net
          (mkRunning client (log_ (LogText "Checking production") (homey device)))
  with
  | (Ok _, s) => mkDevice (Some (api s)) (platform s)
  | (Throw e, s) =>
      mkDevice (Some (api s))
        (setUnavailable_ (message e)
           (log_ (LogText ("Unavailable: " ++ message e)) (platform s)))
  end.
Proof.
  intros Hc. unfold checkProduction, try_catch. rewrite Hc.
  destruct (checkProduction_try net _) as [[[]|e] s]; reflexivity.
Qed.

Lemma checkProduction_try_unmeteredPoll s :
  checkProduction_try net s = unmeteredPoll net s.
Proof.
  unfold checkProduction_try, unmeteredPoll, reportReadings, ENERGY_LINE.
  simpl truthy. simpl negb. cbv iota.
  unfold bind, ret.
  destruct (callApi (getMeters net) s) as [[md|e] s1]; [|reflexivity].
  destruct (homey_log (LogMeters md) s1) as [[[]|e] s2]; [|reflexivity].
  destruct (callApi (getProductionData net) s2) as [[pd|e] s3]; [|reflexivity].
  destruct (homey_log (LogProduction pd) s3) as [[[]|e] s4]; [|reflexivity].
  destruct (setCapabilityValue "meter_power" 0 s4) as [[[]|e] s5]; [|reflexivity].
  destruct (homey_log _ s5) as [[[]|e] s6]; [|reflexivity].
  destruct (unmeteredBranch pd s6) as [[[]|e] s7]; reflexivity.
Qed.

(** The requests of a whole poll never include the meter readings. *)
Lemma checkProduction_try_requests c h :
  countRequests (isGatewayGet (address (this c)) "ivp/meters/readings")
    (sentBetween c (api (snd (checkProduction_try net (mkRunning c h)))))
  = 0%nat.
Proof.
  rewrite checkProduction_try_run.
  destruct (getter_requests net asMeters "ivp/meters" c) as (Ha1 & l1 & Hs1 & Hc1).
  fold (getMeters net) in Ha1, Hs1.
  destruct (getMeters net c) as [[md|e] c1]; simpl in Ha1, Hs1.
  2:{ simpl. rewrite (sentBetween_app c c1 l1 Hs1). by apply Hc1. }
  destruct (getter_requests net asProduction "production.json" c1)
    as (Ha2 & l2 & Hs2 & Hc2).
  fold (getProductionData net) in Ha2, Hs2.
  assert (Hboth : forall c2, sent c2 = (sent c1 ++ l2)%list ->
            countRequests (isGatewayGet (address (this c)) "ivp/meters/readings")
              (sentBetween c c2) = 0%nat).
  { intros c2 Hs. rewrite (sentBetween_app c c2 (l1 ++ l2)).
    - rewrite countRequests_app, Hc1 by done. rewrite <- Ha1. by apply Hc2.
    - rewrite Hs, Hs1, app_assoc. reflexivity. }
  destruct (getProductionData net c1) as [[pd|e] c2]; simpl in Ha2, Hs2.
  2:{ simpl. by apply Hboth. }
  destruct (production pd); simpl; by apply Hboth.
Qed.

Lemma checkProduction_available device client :
  enphaseApi device = Some client ->
  availability (homey (checkProduction net device)) = Available ->
  exists meterData productionData entry rest c1 c2,
    getMeters net client = (Ok meterData, c1) /\
    getProductionData net c1 = (Ok productionData, c2) /\
    production productionData = entry :: rest /\
    checkProduction net device =
    mkDevice (Some c2)
      (setAvailable_
         (unmeteredReported (wNow entry)
            (energyReported productionData
               (log_ (LogMeters meterData)
                  (log_ (LogText "Checking production") (homey device)))))).
Proof.
  intros Hc. rewrite (checkProduction_run device client Hc).
  rewrite checkProduction_try_run.
  destruct (getMeters net client) as [[md|e] c1]; [|discriminate].
  destruct (getProductionData net c1) as [[pd|e] c2] eqn:Ed; [|discriminate].
  simpl. destruct (production pd) as [|entry rest] eqn:Ep; [discriminate|].
  intros _. exists md, pd, entry, rest, c1, c2. repeat split; assumption.
Qed.

End PollOutcome.

(** ** The poll as the platform sees it *)

Ltac lookup_caps :=
  unfold unmeteredReported, meteredReported, energyReported, setAvailable_,
    setCapabilityValue_, log_; simpl;
  repeat (rewrite lookup_insert_eq || rewrite lookup_insert_ne by discriminate);
  try reflexivity.

(** C3.  Whatever the meter list, a poll is the unmetered poll: its [try]
    block runs as the block without the metered branch, no request for
    the meter readings is ever sent, and a poll that ends available has
    set the consumption and grid readings to 0. *)
Theorem checkProduction_always_unmetered (net : Network)
    (device : EnphaseEnvoy) (client : Client) :
  enphaseApi device = Some client ->
  let device' := checkProduction net device in
  (forall s, checkProduction_try net s = unmeteredPoll net s) /\
  (forall client',
     enphaseApi device' = Some client' ->
     countRequests (isGatewayGet (address (this client)) "ivp/meters/readings")
                   (sentBetween client client') = 0%nat) /\
  (availability (homey device') = Available ->
   capabilities (homey device') !! "measure_power.consumption" = Some 0 /\
   capabilities (homey device') !! "measure_power.grid" = Some 0).
Proof.
  intros Hc device'. split; [apply checkProduction_try_unmeteredPoll|]. split.
  - intros client' Hc'. subst device'.
    rewrite (checkProduction_run net device client Hc) in Hc'.
    pose proof (checkProduction_try_requests net client
                  (log_ (LogText "Checking production") (homey device))) as Hr.
    destruct (checkProduction_try net _) as [[[]|e] s];
      simpl in Hc', Hr; injection Hc' as <-; exact Hr.
  - intros Hav. subst device'.
    destruct (checkProduction_available net device client Hc Hav)
      as (md & pd & entry & rest & c1 & c2 & _ & _ & _ & ->).
    split; lookup_caps.
Qed.

(** A poll of a gateway that lists a production and a net-consumption
    meter: no meter readings are requested, and consumption and grid
    are 0. *)
Lemma checkProduction_always_unmetered_witness :
  let device' := checkProduction net_producing discovered in
  isMetered_computed twoMeters = JsBoolean true /\
  capabilities (homey device') !! "measure_power.consumption" = Some 0 /\
  capabilities (homey device') !! "measure_power.grid" = Some 0.
Proof.
  split; [reflexivity|].
  destruct (checkProduction_always_unmetered net_producing discovered staleClient
              eq_refl) as (_ & _ & H).
  apply H. reflexivity.
Defined.

(** C5.  A poll that ends available has read a production report with a
    first production entry; the production power is that entry's [wNow],
    the consumption and grid powers are 0, and [meter_power] is 0,
    whatever the report's watt-hours. *)
Theorem unmetered_poll_readings (net : Network) (device : EnphaseEnvoy)
    (client : Client) :
  enphaseApi device = Some client ->
  let device' := checkProduction net device in
  availability (homey device') = Available ->
  exists meterData productionData entry rest c1 c2,
    getMeters net client = (Ok meterData, c1) /\
    getProductionData net c1 = (Ok productionData, c2) /\
    production productionData = entry :: rest /\
    capabilities (homey device') !! "measure_power" = Some (wNow entry) /\
    capabilities (homey device') !! "measure_power.consumption" = Some 0 /\
    capabilities (homey device') !! "measure_power.grid" = Some 0 /\
    capabilities (homey device') !! "meter_power" = Some 0.
Proof.
  intros Hc device' Hav. subst device'.
  destruct (checkProduction_available net device client Hc Hav)
    as (md & pd & entry & rest & c1 & c2 & Hm & Hp & He & ->).
  exists md, pd, entry, rest, c1, c2. repeat split; try assumption; lookup_caps.
Qed.

(** The report [{production: [{wNow: 842}]}] gives 842 W of production,
    0 W of consumption and grid, and no energy. *)
Lemma unmetered_poll_readings_witness :
  let device' := checkProduction net_producing discovered in
  availability (homey device') = Available /\
  capabilities (homey device') !! "measure_power" = Some 842 /\
  capabilities (homey device') !! "measure_power.consumption" = Some 0 /\
  capabilities (homey device') !! "measure_power.grid" = Some 0 /\
  capabilities (homey device') !! "meter_power" = Some 0.
Proof.
  split; [reflexivity|].
  destruct (unmetered_poll_readings net_producing discovered staleClient
              eq_refl eq_refl)
    as (md & pd & entry & rest & c1 & c2 & Hm & Hp & He & H1 & H2 & H3 & H4).
  injection Hm as <- <-. injection Hp as <- <-. injection He as <- <-.
  repeat split; assumption.
Defined.

(** C6.  When [getMeters] or [getProductionData] throws, the poll stops
    there: no capability is changed, and the device is made unavailable
    with the message of the error that was thrown.  More generally the
    handler of the poll gives [setUnavailable] the message of whatever
    error leaves the [try] block. *)
Theorem checkProduction_client_failure (net : Network) (device : EnphaseEnvoy)
    (client : Client) (e : Error) :
  enphaseApi device = Some client ->
  (fst (getMeters net client) = Throw e \/
   exists meterData c1,
     getMeters net client = (Ok meterData, c1) /\
     fst (getProductionData net c1) = Throw e) ->
  let device' := checkProduction net device in
  availability (homey device') = Unavailable (message e) /\
  capabilities (homey device') = capabilities (homey device) /\
  last (logged (homey device')) = Some (LogText ("Unavailable: " ++ message e)) /\
  (forall (body : M Running unit) s s',
     body s = (Throw e, s') ->
     let after := platform (snd (try_catch body checkProduction_catch s)) in
     availability after = Unavailable (message e) /\
     capabilities after = capabilities (platform s')).
Proof.
  intros Hc Hfail device'. subst device'.
  rewrite (checkProduction_run net device client Hc), checkProduction_try_run.
  assert (Hcatch : forall (body : M Running unit) s s',
            body s = (Throw e, s') ->
            let after := platform (snd (try_catch body checkProduction_catch s)) in
            availability after = Unavailable (message e) /\
            capabilities after = capabilities (platform s')).
  { intros body s s' Hb. unfold try_catch. rewrite Hb. split; reflexivity. }
  destruct Hfail as [Hm|(md & c1 & Hm & Hp)].
  - destruct (getMeters net client) as [[md|e'] c1]; simpl in Hm; [discriminate|].
    injection Hm as ->. simpl. rewrite last_snoc.
    split; [|split; [|split]]; try reflexivity. exact Hcatch.
  - rewrite Hm.
    destruct (getProductionData net c1) as [[pd|e'] c2]; simpl in Hp;
      [discriminate|].
    injection Hp as ->. simpl. rewrite last_snoc.
    split; [|split; [|split]]; try reflexivity. exact Hcatch.
Qed.

(** An unreachable gateway: the poll leaves the device unavailable with
    the message of the connection error. *)
Lemma checkProduction_client_failure_witness :
  let device' := checkProduction net_unreachable discovered in
  fst (getMeters net_unreachable staleClient) = Throw (mkError "ECONNREFUSED") /\
  availability (homey device') = Unavailable "ECONNREFUSED" /\
  capabilities (homey device') = capabilities (homey discovered).
Proof.
  split; [reflexivity|].
  destruct (checkProduction_client_failure net_unreachable discovered staleClient
              (mkError "ECONNREFUSED") eq_refl (or_introl eq_refl))
    as (H1 & H2 & _).
  split; [exact H1|exact H2].
Defined.

(** ** The metered branch *)




(** Beyond 2^53 the sum is the nearest double, as in JavaScript. *)
Example js_add_rounds :
  js_add 9007199254740992 1 = 9007199254740992 /\
  js_add 9007199254740992 3 = 9007199254740996 /\
  js_add (-9007199254740992) (-1) = -9007199254740992 /\
  js_add 9007199254740992 2 = 9007199254740994.
Proof. repeat split. Qed.

(** C9.  In metered mode, when the join misses the production power or
    the grid power, the poll does not fail: the production, consumption
    and grid readings keep their values, the diagnostic is logged, and
    the device ends available. *)
Theorem metered_missing_join (net : Network) (meterData : list Meter)
    (isMetered : JsValue) (s : Running) (productionData : ApiProduction)
    (readings : list MeterReading) (c c' : Client) :
  truthy isMetered = true ->
  getProductionData net (api s) = (Ok productionData, c) ->
  getMeterReadings net c = (Ok readings, c') ->
  productionPower meterData readings = None \/
  gridConsumptionPower meterData readings = None ->
  let r := fst (reportReadings net meterData isMetered s) in
  let h' := platform (snd (reportReadings net meterData isMetered s)) in
  r = Ok tt /\
  availability h' = Available /\
  capabilities h' !! "measure_power"
  = capabilities (platform s) !! "measure_power" /\
  capabilities h' !! "measure_power.consumption"
  = capabilities (platform s) !! "measure_power.consumption" /\
  capabilities h' !! "measure_power.grid"
  = capabilities (platform s) !! "measure_power.grid" /\
  last (logged h') = Some (LogText JOIN_DIAGNOSTIC).
Proof.
  intros Hm Hp Hr Hmiss r h'. subst r h'.
  rewrite (reportReadings_metered net meterData isMetered s Hm), Hp.
  simpl. rewrite Hr.
  assert (Hlast : forall l : list LogEntry,
            last (l ++ [LogText JOIN_DIAGNOSTIC]) = Some (LogText JOIN_DIAGNOSTIC))
    by (intros l; apply last_snoc).
  destruct Hmiss as [H|H]; rewrite H.
  - simpl. repeat split; lookup_caps; apply Hlast.
  - destruct (productionPower meterData readings); simpl;
      repeat split; lookup_caps; apply Hlast.
Qed.

(** Readings without the production meter: the three readings keep the
    values they had and the device ends available. *)
Lemma metered_missing_join_witness :
  let h' :=
    platform (snd (reportReadings net_no_production_reading twoMeters
                     (JsBoolean true) polling)) in
  availability h' = Available /\
  capabilities h' !! "measure_power" = Some 100 /\
  capabilities h' !! "measure_power.consumption" = Some 40 /\
  capabilities h' !! "measure_power.grid" = Some (-60).
Proof.
  destruct (metered_missing_join net_no_production_reading twoMeters
              (JsBoolean true) polling _ _ _ _ eq_refl eq_refl eq_refl
              (or_introl eq_refl))
    as (_ & Ha & H1 & H2 & H3 & _).
  repeat split; assumption.
Defined.

(** C10.  A reading that matches the meter of a type and whose active
    power is 0 counts as no reading: the looked-up power is null, and in
    metered mode the poll takes the missing-join path. *)
Theorem zero_power_is_missing (net : Network) (meterData : list Meter)
    (isMetered : JsValue) (s : Running) (productionData : ApiProduction)
    (readings : list MeterReading) (c c' : Client)
    (type : string) (reading : MeterReading) :
  truthy isMetered = true ->
  getProductionData net (api s) = (Ok productionData, c) ->
  getMeterReadings net c = (Ok readings, c') ->
  type = PRODUCTION_METER \/ type = NET_CONSUMPTION_METER ->
  find (fun meter =>
          bool_decide (Some (reading_eid meter) = eidOfType type meterData))
       readings = Some reading ->
  activePower reading = 0 ->
  activePowerOfType type meterData readings = None /\
  reportReadings net meterData isMetered s
  = (Ok tt,
     mkRunning c'
       (setAvailable_
          (log_ (LogText JOIN_DIAGNOSTIC)
             (energyReported productionData (platform s))))).
Proof.
  intros Hm Hp Hr Htype Hfind Hzero.
  assert (Hnull : activePowerOfType type meterData readings = None).
  { unfold activePowerOfType. rewrite Hfind. simpl. rewrite Hzero. reflexivity. }
  split; [exact Hnull|].
  rewrite (reportReadings_metered net meterData isMetered s Hm), Hp.
  simpl. rewrite Hr.
  destruct Htype as [-> | ->].
  - fold productionPower in Hnull. rewrite Hnull. reflexivity.
  - fold gridConsumptionPower in Hnull. rewrite Hnull.
    destruct (productionPower meterData readings); reflexivity.
Qed.

(** At night the production meter reads 0 W: its power is looked up as
    null although the reading is there. *)
Lemma zero_power_is_missing_witness :
  productionPower twoMeters [mkReading 704643328 0; mkReading 704643584 350] = None /\
  last (logged (platform (snd (reportReadings net_night twoMeters
                                 (JsBoolean true) polling))))
  = Some (LogText JOIN_DIAGNOSTIC).
Proof.
  destruct (zero_power_is_missing net_night twoMeters (JsBoolean true) polling
              _ _ _ _ PRODUCTION_METER (mkReading 704643328 0)
              eq_refl eq_refl eq_refl (or_introl eq_refl) eq_refl eq_refl)
    as (H1 & H2).
  split; [exact H1|]. rewrite H2. reflexivity.
Defined.


(** * Further properties of the session client *)

Section ClientMore.

Variable net : Network.

Lemma isClientError_not_ok (r : Response) : ok r = true -> isClientError r = false.
Proof.
  unfold ok, isClientError. intros H. apply andb_true_iff in H as [_ H].
  apply Z.ltb_lt in H. apply andb_false_iff. left. apply Z.leb_gt. lia.
Qed.

(** What one run of [getAccessToken] sends: at most the three requests of
    the protocol, the login first. *)
Lemma getAccessToken_three_requests c :
  exists l : list Request,
    sent (snd (getAccessToken net c)) = (sent c ++ l)%list /\
    (length l <= 3)%nat /\
    countRequests isLoginRequest l = 1%nat.
Proof.
  destruct (getAccessToken_trace net c) as (rest & Hs & Hl & _).
  exists (loginRequest (username (this c)) (password (this c)) :: rest).
  split; [exact Hs|]. split.
  - revert Hs. rewrite getAccessToken_steps.
    destruct (fst (getEnphaseSessionId net _ _ c)) as [sid|e].
    2:{ simpl. intros H. apply app_inv_head in H. injection H as <-. simpl. lia. }
    destruct (net _ (exchangeRequest c sid)) as [e|tr];
      [|destruct (ok tr)];
      try (simpl; rewrite <- ?app_assoc; intros H; apply app_inv_head in H;
           injection H as <-; simpl; lia).
    simpl.
    destruct (net _ (jwtRequest c (text tr))) as [e|jr];
      [|destruct (ok jr)];
      (simpl; rewrite <- ?app_assoc; intros H; apply app_inv_head in H;
       injection H as <-; simpl; lia).
  - rewrite countRequests_cons, Hl. reflexivity.
Qed.

End ClientMore.

(** X1.  A client without an address ([null], as when only credentials
    are tested) cannot fetch: [fetchApiEndpoint] and the three getters
    throw the uninitialised-device error, send nothing and leave the
    client as it is. *)
Theorem fetchApiEndpoint_uninitialised (net : Network) (path : string)
    (isRetry : bool) (c : Client) :
  address (this c) = None ->
  fetchApiEndpoint net path isRetry c = (Throw uninitialisedError, c) /\
  getProductionData net c = (Throw uninitialisedError, c) /\
  getMeters net c = (Throw uninitialisedError, c) /\
  getMeterReadings net c = (Throw uninitialisedError, c).
Proof.
  intros Ha.
  assert (H : forall p r, fetchApiEndpoint net p r c = (Throw uninitialisedError, c))
    by (intros p r; rewrite fetchApiEndpoint_run, Ha; reflexivity).
  split; [apply H|].
  unfold getProductionData, getMeters, getMeterReadings, bind.
  rewrite !H. repeat split.
Qed.

Lemma fetchApiEndpoint_uninitialised_witness :
  getProductionData net_producing credentialsOnlyClient
  = (Throw uninitialisedError, credentialsOnlyClient).
Proof.
  destruct (fetchApiEndpoint_uninitialised net_producing "production.json" false
              credentialsOnlyClient eq_refl) as (_ & H & _).
  exact H.
Defined.

(** X2.  [fetchApiEndpoint] hands back 2xx responses only: whenever it
    returns a response, that response is [ok] and is not a client
    error. *)
Theorem fetchApiEndpoint_returns_ok (net : Network) (path : string)
    (isRetry : bool) (c : Client) (response : Response) :
  fst (fetchApiEndpoint net path isRetry c) = Ok response ->
  ok response = true /\ isClientError response = false.
Proof.
  assert (Hsingle : forall c2,
            fst (singleAttempt net path c2) = Ok response -> ok response = true).
  { intros c2. unfold singleAttempt.
    destruct (net _ _) as [e|r]; [discriminate|].
    destruct (ok r) eqn:Hok; [|discriminate]. simpl. by intros [= <-]. }
  intros H. cut (ok response = true).
  { intros Hok. split; [exact Hok|by apply isClientError_not_ok]. }
  revert H. rewrite fetchApiEndpoint_run.
  destruct (address (this c)) eqn:Ea; [|discriminate].
  fold (singleAttempt net path c).
  destruct (net (sent c) _) as [e|r] eqn:En; [discriminate|].
  destruct (isClientError r && negb isRetry).
  - pose proof (getAccessToken_keeps net (afterRequest c path)) as (Hk & _).
    destruct (getAccessToken net _) as [[[]|e] c2]; [|discriminate].
    rewrite fetchApiEndpoint_retry. simpl in Hk. rewrite Hk, Ea. apply Hsingle.
  - destruct (ok r) eqn:Hok; [|discriminate]. simpl. by intros [= <-].
Qed.

Lemma fetchApiEndpoint_returns_ok_witness :
  ok (mkResponse 200 None "[...]" (Some (JsonMeters twoMeters))) = true.
Proof.
  apply (fetchApiEndpoint_returns_ok (scripted [metersOk]) "ivp/meters" false
           staleClient).
  reflexivity.
Defined.

(** X3.  A first response outside 400..499 decides the call alone: a 2xx
    response is returned, any other (a redirect left unfollowed, a 5xx)
    makes the call throw the fetch error at once.  One request is sent,
    there is no re-authentication, and the client object is unchanged. *)
Theorem fetchApiEndpoint_no_retry_outside_4xx (net : Network) (path : string)
    (isRetry : bool) (c : Client) (a : string) (response : Response) :
  address (this c) = Some a ->
  net (sent c) (gatewayRequest (address (this c)) path (sessionId (this c)))
  = Resolved response ->
  isClientError response = false ->
  fetchApiEndpoint net path isRetry c
  = (if ok response then Ok response else Throw (fetchError response (this c)),
     afterRequest c path) /\
  this (snd (fetchApiEndpoint net path isRetry c)) = this c /\
  sentBetween c (snd (fetchApiEndpoint net path isRetry c))
  = [gatewayRequest (address (this c)) path (sessionId (this c))].
Proof.
  intros Ha Hn Hc.
  assert (Heq : fetchApiEndpoint net path isRetry c
                = (if ok response then Ok response
                   else Throw (fetchError response (this c)),
                   afterRequest c path)).
  { rewrite fetchApiEndpoint_run, Hn, Hc. simpl.
    destruct (address (this c)); [|discriminate].
    destruct (ok response); reflexivity. }
  rewrite Heq. split; [reflexivity|]. split; [reflexivity|].
  by apply sentBetween_app.
Qed.

Lemma fetchApiEndpoint_no_retry_outside_4xx_witness :
  fetchApiEndpoint net_gateway_down "ivp/meters" false staleClient
  = (Throw (mkError
       "An unknown error occurred while fetching inverter data:503 and bearer: OLDTOKEN and sessionId: oldcookie"),
     afterRequest staleClient "ivp/meters").
Proof.
  destruct (fetchApiEndpoint_no_retry_outside_4xx net_gateway_down "ivp/meters"
              false staleClient "192.168.1.20"
              (mkResponse 503 None "service unavailable" None)
              eq_refl eq_refl eq_refl) as (H & _).
  exact H.
Defined.

(** X4.  When the connection itself fails, the error of [fetch] is the
    error of the call, unchanged: there is no re-authentication and no
    second attempt. *)
Theorem fetchApiEndpoint_transport_failure (net : Network) (path : string)
    (isRetry : bool) (c : Client) (a : string) (e : Error) :
  address (this c) = Some a ->
  net (sent c) (gatewayRequest (address (this c)) path (sessionId (this c)))
  = Rejected e ->
  fetchApiEndpoint net path isRetry c = (Throw e, afterRequest c path).
Proof.
  intros Ha Hn. rewrite fetchApiEndpoint_run, Hn.
  destruct (address (this c)); [reflexivity|discriminate].
Qed.

Lemma fetchApiEndpoint_transport_failure_witness :
  fetchApiEndpoint net_unreachable "ivp/meters" false staleClient
  = (Throw (mkError "ECONNREFUSED"), afterRequest staleClient "ivp/meters").
Proof.
  exact (fetchApiEndpoint_transport_failure net_unreachable "ivp/meters" false
           staleClient "192.168.1.20" (mkError "ECONNREFUSED") eq_refl eq_refl).
Defined.

(** The requests of one call of [fetchApiEndpoint], counted. *)
Lemma fetchApiEndpoint_request_bounds (net : Network) (path : string)
    (isRetry : bool) (c : Client) :
  let new := sentBetween c (snd (fetchApiEndpoint net path isRetry c)) in
  (length new <= if isRetry then 1 else 5)%nat /\
  (countRequests isLoginRequest new <= if isRetry then 0 else 1)%nat /\
  (countRequests (isGatewayGet (address (this c)) path) new
   <= if isRetry then 1 else 2)%nat.
Proof.
  cbv zeta.
  assert (Hnil : forall p, countRequests p [] = 0%nat) by reflexivity.
  assert (Hreq : forall s,
            isLoginRequest (gatewayRequest (address (this c)) path s) = false)
    by reflexivity.
  rewrite fetchApiEndpoint_run.
  destruct (address (this c)) as [a|] eqn:Ea.
  2:{ unfold sentBetween, countRequests. rewrite drop_all. simpl.
      destruct isRetry; lia. }
  rewrite <- Ea in *.
  set (req := gatewayRequest (address (this c)) path (sessionId (this c))) in *.
  assert (Hone : forall r : Result Response,
            sentBetween c (snd (r, afterRequest c path)) = [req])
    by (intros r; by apply sentBetween_app).
  assert (Hbound : forall r : Result Response,
    (length (sentBetween c (snd (r, afterRequest c path)))
     <= if isRetry then 1 else 5)%nat /\
    (countRequests isLoginRequest (sentBetween c (snd (r, afterRequest c path)))
     <= if isRetry then 0 else 1)%nat /\
    (countRequests (isGatewayGet (address (this c)) path)
       (sentBetween c (snd (r, afterRequest c path)))
     <= if isRetry then 1 else 2)%nat).
  { intros r. rewrite Hone. rewrite !countRequests_cons. subst req.
    rewrite Hreq, isGatewayGet_gatewayRequest, !Hnil. simpl.
    destruct isRetry; lia. }
  destruct (net (sent c) req) as [e|r]; [apply Hbound|].
  destruct (isClientError r && negb isRetry) eqn:Hretry.
  2:{ destruct (ok r); apply Hbound. }
  apply andb_true_iff in Hretry as [_ Hretry].
  destruct isRetry; [discriminate|]. clear Hretry Hbound.
  pose proof (getAccessToken_keeps net (afterRequest c path)) as (Hk & _).
  destruct (getAccessToken_three_requests net (afterRequest c path))
    as (l & Hs & Hlen & Hlogin).
  destruct (getAccessToken_trace net (afterRequest c path))
    as (rest & Hs' & _ & Hg).
  rewrite Hs in Hs'. apply app_inv_head in Hs'. subst l.
  simpl in Hk, Hs. fold req in Hs.
  destruct (getAccessToken net _) as [[[]|e] c2]; simpl in Hk, Hs.
  - assert (Hsa : fetchApiEndpoint net path true c2 = singleAttempt net path c2)
      by (rewrite fetchApiEndpoint_retry, Hk, Ea; reflexivity).
    rewrite Hsa.
    pose proof (singleAttempt_sent net path c2) as Hr. rewrite Hs, Hk in Hr.
    erewrite sentBetween_app by (rewrite Hr, <- !app_assoc; reflexivity).
    repeat (rewrite countRequests_app || rewrite countRequests_cons).
    rewrite !length_app, Hg. simpl length. rewrite countRequests_cons in Hlogin.
    subst req. rewrite !Hreq, !isGatewayGet_gatewayRequest, !Hnil.
    simpl in *.
    replace (isLoginRequest
               (loginRequest (username (this c)) (password (this c))))
      with true in * by reflexivity.
    simpl in *. lia.
  - simpl.
    erewrite sentBetween_app by (rewrite Hs, <- !app_assoc; reflexivity).
    repeat (rewrite countRequests_app || rewrite countRequests_cons).
    rewrite !length_app, Hg. simpl length. rewrite countRequests_cons in Hlogin.
    subst req. rewrite !Hreq, !isGatewayGet_gatewayRequest, ?Hnil.
    simpl in *.
    replace (isLoginRequest
               (loginRequest (username (this c)) (password (this c))))
      with true in * by reflexivity.
    simpl in *. lia.
Qed.

Lemma fetchApiEndpoint_config (net : Network) (path : string)
    (isRetry : bool) (c : Client) :
  let self' := this (snd (fetchApiEndpoint net path isRetry c)) in
  address self' = address (this c) /\ deviceSn self' = deviceSn (this c) /\
  username self' = username (this c) /\ password self' = password (this c).
Proof.
  cbv zeta. rewrite fetchApiEndpoint_run.
  destruct (address (this c)) as [a|] eqn:Ea; [|simpl; by rewrite Ea].
  rewrite <- Ea.
  destruct (net (sent c) _) as [e|r]; [done|].
  destruct (isClientError r && negb isRetry); [|by destruct (ok r)].
  pose proof (getAccessToken_keeps net (afterRequest c path)) as Hk.
  destruct (getAccessToken net _) as [[[]|e] c2]; simpl in Hk; [|exact Hk].
  assert (Hsa : fetchApiEndpoint net path true c2 = singleAttempt net path c2)
    by (rewrite fetchApiEndpoint_retry, (proj1 Hk), Ea; reflexivity).
  rewrite Hsa. unfold singleAttempt.
  destruct (net (sent c2) _) as [e|r2]; [exact Hk|].
  destruct (ok r2); exact Hk.
Qed.

(** The client a getter leaves is the one its [fetchApiEndpoint] call
    leaves. *)
Lemma getter_client (net : Network) {A} (as_type : Json -> option A)
    (path : string) (c : Client) :
  snd ((response <- fetchApiEndpoint net path false ;; parsed as_type response) c)
  = snd (fetchApiEndpoint net path false c).
Proof.
  unfold bind. destruct (fetchApiEndpoint net path false c) as [[r|e] c1];
    [apply parsed_client|reflexivity].
Qed.

(** X5.  No call of [fetchApiEndpoint] loops: it sends at most five
    requests, of which at most one login and at most two requests for
    the endpoint; a call that is already a retry sends at most one
    request and never logs in.  The getters are first calls, with the
    bounds of a first call. *)
Theorem fetchApiEndpoint_bounded (net : Network) (path : string)
    (isRetry : bool) (c : Client) :
  let bounded (first : bool) (p : string) (c' : Client) :=
    (length (sentBetween c c') <= if first then 5 else 1)%nat /\
    (countRequests isLoginRequest (sentBetween c c') <= if first then 1 else 0)%nat /\
    (countRequests (isGatewayGet (address (this c)) p) (sentBetween c c')
     <= if first then 2 else 1)%nat in
  bounded (negb isRetry) path (snd (fetchApiEndpoint net path isRetry c)) /\
  bounded true "production.json" (snd (getProductionData net c)) /\
  bounded true "ivp/meters" (snd (getMeters net c)) /\
  bounded true "ivp/meters/readings" (snd (getMeterReadings net c)).
Proof.
  cbv zeta. split.
  - pose proof (fetchApiEndpoint_request_bounds net path isRetry c) as H.
    destruct isRetry; exact H.
  - unfold getProductionData, getMeters, getMeterReadings.
    rewrite !getter_client.
    split; [|split]; apply (fetchApiEndpoint_request_bounds net _ false c).
Qed.

(** X6.  Fetching never touches the configuration of the client: after
    [fetchApiEndpoint], and so after each getter, the address, the serial
    number and the credentials are the ones before the call. *)
Theorem fetchApiEndpoint_keeps_config (net : Network) (path : string)
    (isRetry : bool) (c : Client) :
  let kept (c' : Client) :=
    address (this c') = address (this c) /\
    deviceSn (this c') = deviceSn (this c) /\
    username (this c') = username (this c) /\
    password (this c') = password (this c) in
  kept (snd (fetchApiEndpoint net path isRetry c)) /\
  kept (snd (getProductionData net c)) /\
  kept (snd (getMeters net c)) /\
  kept (snd (getMeterReadings net c)).
Proof.
  cbv zeta. split; [apply fetchApiEndpoint_config|].
  unfold getProductionData, getMeters, getMeterReadings.
  rewrite !getter_client.
  split; [|split]; apply (fetchApiEndpoint_config net _ false c).
Qed.

(** X7.  After a client error and a re-authentication that returns, the
    request is sent again with the session id that this
    re-authentication stored, not the one of the first attempt; the
    address is the same. *)
Theorem fetchApiEndpoint_retry_uses_new_cookie (net : Network) (path : string)
    (c c2 : Client) (a : string) (response : Response) :
  address (this c) = Some a ->
  net (sent c) (gatewayRequest (address (this c)) path (sessionId (this c)))
  = Resolved response ->
  isClientError response = true ->
  getAccessToken net (afterRequest c path) = (Ok tt, c2) ->
  last (sent (snd (fetchApiEndpoint net path false c)))
  = Some (gatewayRequest (address (this c)) path (sessionId (this c2))).
Proof.
  intros Ha Hn Hc Hauth.
  pose proof (getAccessToken_keeps net (afterRequest c path)) as (Hk & _).
  rewrite Hauth in Hk. simpl in Hk.
  assert (Hsa : fetchApiEndpoint net path true c2 = singleAttempt net path c2)
    by (rewrite fetchApiEndpoint_retry, Hk, Ha; reflexivity).
  rewrite fetchApiEndpoint_run, Hn, Hc, Hauth, Hsa. simpl.
  destruct (address (this c)) eqn:Ea; [|discriminate].
  rewrite singleAttempt_sent, Hk, ?Ea. apply last_snoc.
Qed.

(** The gateway accepts the token without setting a cookie: the retried
    request carries [Cookie: sessionId=undefined]. *)
Lemma fetchApiEndpoint_retry_uses_new_cookie_witness :
  last (sent (snd (fetchApiEndpoint net_reauth_no_cookie "ivp/meters" false
                     staleClient)))
  = Some (mkRequest "https://192.168.1.20/ivp/meters" GET
            [("Cookie", "sessionId=undefined")] NoBody GatewayAgent).
Proof.
  exact (fetchApiEndpoint_retry_uses_new_cookie net_reauth_no_cookie "ivp/meters"
           staleClient _ "192.168.1.20"
           (mkResponse 401 None "unauthorized" None)
           eq_refl eq_refl eq_refl eq_refl).
Defined.

(** X8.  [getEnphaseSessionId] sends the one login request and nothing
    else, and never changes the client.  It returns the [session_id] of
    a 2xx response, throws the failed-login error for any other response,
    and passes on the error of a failed connection. *)
Theorem getEnphaseSessionId_outcome (net : Network) (u p : string) (c : Client) :
  snd (getEnphaseSessionId net u p c)
  = mkClient (this c) (sent c ++ [loginRequest u p]) /\
  (forall e,
     net (sent c) (loginRequest u p) = Rejected e ->
     fst (getEnphaseSessionId net u p c) = Throw e) /\
  (forall r,
     net (sent c) (loginRequest u p) = Resolved r ->
     ok r = false ->
     fst (getEnphaseSessionId net u p c) = Throw loginFailedError) /\
  (forall r sid,
     net (sent c) (loginRequest u p) = Resolved r ->
     ok r = true ->
     json r = Some (JsonLogin sid) ->
     fst (getEnphaseSessionId net u p c) = Ok sid).
Proof.
  split; [apply getEnphaseSessionId_client|].
  unfold getEnphaseSessionId. run_monad.
  split; [|split].
  - intros e ->. reflexivity.
  - intros r -> ->. reflexivity.
  - intros r sid -> -> ->. reflexivity.
Qed.

Lemma getEnphaseSessionId_outcome_witness :
  fst (getEnphaseSessionId net_login_rejected "user@example.org" "wrong"
         staleClient)
  = Throw loginFailedError.
Proof.
  destruct (getEnphaseSessionId_outcome net_login_rejected "user@example.org"
              "wrong" staleClient) as (_ & _ & H & _).
  apply (H (mkResponse 401 None "invalid credentials" None)); reflexivity.
Defined.

(** X9.  A run of [getAccessToken] that returns has sent exactly three
    requests, in this order: the login with the stored credentials, the
    token request with the session id the login returned, the serial
    number and the user name, and the JWT check whose bearer token is the
    body of the response the network gave to that token request; this
    body is now the stored token. *)
Theorem getAccessToken_data_flow (net : Network) (c : Client) :
  fst (getAccessToken net c) = Ok tt ->
  exists sid tokenResponse,
    fst (getEnphaseSessionId net (username (this c)) (password (this c)) c)
    = Ok sid /\
    net (sent c ++ [loginRequest (username (this c)) (password (this c))])%list
        (tokenRequest sid (deviceSn (this c)) (username (this c)))
    = Resolved tokenResponse /\
    ok tokenResponse = true /\
    accessToken (this (snd (getAccessToken net c))) = Val (text tokenResponse) /\
    sentBetween c (snd (getAccessToken net c))
    = [loginRequest (username (this c)) (password (this c));
       tokenRequest sid (deviceSn (this c)) (username (this c));
       checkJwtRequest (address (this c)) (Val (text tokenResponse))].
Proof.
  rewrite (getAccessToken_steps net c).
  destruct (fst (getEnphaseSessionId net _ _ c)) as [sid|e]; [|discriminate].
  destruct (net _ (exchangeRequest c sid)) as [e|tr] eqn:Et; [discriminate|].
  destruct (ok tr) eqn:Hok; [|discriminate]. simpl.
  destruct (net _ (jwtRequest c (text tr))) as [e|jr]; [discriminate|].
  destruct (ok jr); [|discriminate].
  intros _. exists sid, tr.
  split; [reflexivity|]. split; [exact Et|]. split; [exact Hok|].
  split; [reflexivity|].
  apply sentBetween_app. simpl. by rewrite <- !app_assoc.
Qed.

(** On the network that accepts everything, the bearer sent to the
    gateway and the token stored are the body of the token response. *)
Lemma getAccessToken_data_flow_witness :
  exists sid tokenResponse,
    fst (getEnphaseSessionId net_authenticated "user@example.org" "secret"
           staleClient) = Ok sid /\
    net_authenticated
      (sent staleClient ++ [loginRequest "user@example.org" "secret"])%list
      (tokenRequest sid "122000000001" "user@example.org")
    = Resolved tokenResponse /\
    ok tokenResponse = true /\
    accessToken (this (snd (getAccessToken net_authenticated staleClient)))
    = Val (text tokenResponse) /\
    sentBetween staleClient (snd (getAccessToken net_authenticated staleClient))
    = [loginRequest "user@example.org" "secret";
       tokenRequest sid "122000000001" "user@example.org";
       checkJwtRequest (Some "192.168.1.20") (Val (text tokenResponse))].
Proof.
  exact (getAccessToken_data_flow net_authenticated staleClient eq_refl).
Defined.

(** X10.  What [getAccessToken] does is independent of the secrets held
    before: two clients with the same configuration and the same history
    get the same outcome and send the same requests, and when the run
    returns they end as the same client. *)
Theorem getAccessToken_overwrites (net : Network) (c1 c2 : Client) :
  address (this c1) = address (this c2) ->
  deviceSn (this c1) = deviceSn (this c2) ->
  username (this c1) = username (this c2) ->
  password (this c1) = password (this c2) ->
  sent c1 = sent c2 ->
  fst (getAccessToken net c1) = fst (getAccessToken net c2) /\
  sent (snd (getAccessToken net c1)) = sent (snd (getAccessToken net c2)) /\
  (fst (getAccessToken net c1) = Ok tt ->
   snd (getAccessToken net c1) = snd (getAccessToken net c2)).
Proof.
  destruct c1 as [[a1 d1 u1 p1 t1 s1] h1], c2 as [[a2 d2 u2 p2 t2 s2] h2].
  simpl. intros -> -> -> -> ->.
  rewrite !getAccessToken_steps.
  unfold getEnphaseSessionId, afterLogin, exchangeRequest, afterExchange,
    jwtRequest, afterCheck. run_monad.
  destruct (net h2 (loginRequest u2 p2)) as [e|r]; [done|].
  destruct (ok r); [|done]. simpl.
  destruct (json r ≫= asLogin) as [sid|]; [|done]. simpl.
  destruct (net _ (tokenRequest sid d2 u2)) as [e|tr]; [done|].
  destruct (ok tr); [|done]. simpl.
  destruct (net _ (checkJwtRequest a2 (Val (text tr)))) as [e|jr]; [done|].
  destruct (ok jr); done.
Qed.

Lemma getAccessToken_overwrites_witness :
  snd (getAccessToken net_authenticated staleClient)
  = snd (getAccessToken net_authenticated
           (mkClient (constructor (Some "192.168.1.20") "122000000001"
                        "user@example.org" "secret") [])).
Proof.
  destruct (getAccessToken_overwrites net_authenticated staleClient
              (mkClient (constructor (Some "192.168.1.20") "122000000001"
                           "user@example.org" "secret") [])
              eq_refl eq_refl eq_refl eq_refl eq_refl) as (_ & _ & H).
  apply H. reflexivity.
Defined.

(** X11.  [setCredentials] replaces the credentials and nothing else: the
    address, the serial number, the bearer token and the session id
    stay.  The next [getAccessToken] logs in with the new credentials. *)
Theorem setCredentials_then_getAccessToken (net : Network) (u p : string)
    (c : Client) :
  let c' := mkClient (setCredentials u p (this c)) (sent c) in
  address (this c') = address (this c) /\
  deviceSn (this c') = deviceSn (this c) /\
  accessToken (this c') = accessToken (this c) /\
  sessionId (this c') = sessionId (this c) /\
  head (sentBetween c' (snd (getAccessToken net c'))) = Some (loginRequest u p).
Proof.
  cbv zeta. repeat split.
  destruct (getAccessToken_trace net (mkClient (setCredentials u p (this c)) (sent c)))
    as (rest & Hs & _).
  by rewrite (sentBetween_app _ _ _ Hs).
Qed.


(** * Further properties of the poll *)

Section PollMore.

Variable net : Network.

(** The client a poll leaves. *)
Lemma checkProduction_try_client c h :
  api (snd (checkProduction_try net (mkRunning c h)))
  = match getMeters net c with
    | (Ok _, c1) => snd (getProductionData net c1)
    | (Throw _, c1) => c1
    end.
Proof.
  rewrite checkProduction_try_run.
  destruct (getMeters net c) as [[md|e] c1]; [|reflexivity].
  destruct (getProductionData net c1) as [[pd|e] c2]; [|reflexivity].
  simpl. destruct (production pd); reflexivity.
Qed.

Lemma checkProduction_client device client :
  enphaseApi device = Some client ->
  enphaseApi (checkProduction net device)
  = Some (api (snd (checkProduction_try net
                      (mkRunning client
                         (log_ (LogText "Checking production") (homey device)))))).
Proof.
  intros Hc. rewrite (checkProduction_run net device client Hc).
  destruct (checkProduction_try net _) as [[[]|e] s]; reflexivity.
Qed.

(** A first call sends its request for the endpoint first. *)
Lemma fetchApiEndpoint_first_request path isRetry c a :
  address (this c) = Some a ->
  exists l : list Request,
    sent (snd (fetchApiEndpoint net path isRetry c))
    = (sent c ++ gatewayRequest (address (this c)) path (sessionId (this c)) :: l)%list.
Proof.
  intros Ha. rewrite fetchApiEndpoint_run.
  destruct (address (this c)) eqn:Ea; [|discriminate]. rewrite <- Ea.
  destruct (net (sent c) _) as [e|r]; [by exists []|].
  destruct (isClientError r && negb isRetry); [|destruct (ok r); by exists []].
  destruct (fetchApiEndpoint_requests net path true
              (snd (getAccessToken net (afterRequest c path))))
    as (_ & l2 & Hs2 & _).
  destruct (getAccessToken_trace net (afterRequest c path)) as (rest & Hs & _).
  destruct (getAccessToken net _) as [[[]|e] c2]; simpl in *.
  - eexists. rewrite Hs2, Hs, <- !app_assoc. reflexivity.
  - eexists. rewrite Hs, <- !app_assoc. reflexivity.
Qed.

End PollMore.

(** X12.  A poll writes the four readings and nothing else: every other
    capability of the device has, after [checkProduction], the value it
    had before, whatever the network answers. *)
Theorem checkProduction_other_capabilities (net : Network)
    (device : EnphaseEnvoy) (name : string) :
  name <> "meter_power" -> name <> "measure_power" ->
  name <> "measure_power.consumption" -> name <> "measure_power.grid" ->
  capabilities (homey (checkProduction net device)) !! name
  = capabilities (homey device) !! name.
Proof.
  intros H1 H2 H3 H4.
  destruct (enphaseApi device) as [client|] eqn:Hc.
  2:{ unfold checkProduction. rewrite Hc. reflexivity. }
  rewrite (checkProduction_run net device client Hc), checkProduction_try_run.
  destruct (getMeters net client) as [[md|e] c1]; [|reflexivity].
  destruct (getProductionData net c1) as [[pd|e] c2]; [|reflexivity].
  simpl. destruct (production pd); simpl.
  - by rewrite lookup_insert_ne.
  - by rewrite !lookup_insert_ne.
Qed.

Lemma checkProduction_other_capabilities_witness :
  capabilities (homey (checkProduction net_producing
                         (mkDevice (Some staleClient)
                            (mkHomey {[ "measure_temperature" := 21 ]}
                               Available []))))
    !! "measure_temperature" = Some 21.
Proof.
  rewrite (checkProduction_other_capabilities net_producing _ "measure_temperature");
    [reflexivity|discriminate..].
Defined.

(** X13.  The log only grows: a poll keeps every line logged before it
    and adds its lines after them, the first being "Checking
    production". *)
Theorem checkProduction_log_grows (net : Network) (device : EnphaseEnvoy) :
  exists lines : list LogEntry,
    logged (homey (checkProduction net device))
    = (logged (homey device) ++ LogText "Checking production" :: lines)%list.
Proof.
  destruct (enphaseApi device) as [client|] eqn:Hc.
  2:{ unfold checkProduction. rewrite Hc. by exists []. }
  rewrite (checkProduction_run net device client Hc), checkProduction_try_run.
  destruct (getMeters net client) as [[md|e] c1];
    [|eexists; simpl; rewrite <- !app_assoc; reflexivity].
  destruct (getProductionData net c1) as [[pd|e] c2];
    [|eexists; simpl; rewrite <- !app_assoc; reflexivity].
  simpl. destruct (production pd);
    eexists; simpl; rewrite <- !app_assoc; reflexivity.
Qed.

(** X14.  A production report without a first production entry makes the
    poll fail after the energy reading was written: the device becomes
    unavailable with the message of the TypeError, [meter_power] is 0,
    and the production, consumption and grid readings keep their
    values. *)
Theorem checkProduction_empty_report (net : Network) (device : EnphaseEnvoy)
    (client c1 c2 : Client) (meterData : list Meter)
    (productionData : ApiProduction) :
  enphaseApi device = Some client ->
  getMeters net client = (Ok meterData, c1) ->
  getProductionData net c1 = (Ok productionData, c2) ->
  production productionData = [] ->
  let h' := homey (checkProduction net device) in
  availability h' = Unavailable (message wNowError) /\
  capabilities h' !! "meter_power" = Some 0 /\
  capabilities h' !! "measure_power"
  = capabilities (homey device) !! "measure_power" /\
  capabilities h' !! "measure_power.consumption"
  = capabilities (homey device) !! "measure_power.consumption" /\
  capabilities h' !! "measure_power.grid"
  = capabilities (homey device) !! "measure_power.grid".
Proof.
  intros Hc Hm Hp He. cbv zeta.
  rewrite (checkProduction_run net device client Hc), checkProduction_try_run,
    Hm, Hp. simpl. rewrite He. simpl.
  repeat split; lookup_caps.
Qed.

Lemma checkProduction_empty_report_witness :
  let h' := homey (checkProduction net_empty_report discovered) in
  availability h'
  = Unavailable "Cannot read properties of undefined (reading 'wNow')" /\
  capabilities h' !! "meter_power" = Some 0 /\
  capabilities h' !! "measure_power" = Some 100.
Proof.
  destruct (checkProduction_empty_report net_empty_report discovered staleClient
              _ _ _ _ eq_refl eq_refl eq_refl eq_refl) as (H1 & H2 & H3 & _).
  repeat split; assumption.
Defined.

(** X15.  A poll of a discovered device ends available exactly when both
    fetches return and the production report has a first production
    entry. *)
Theorem checkProduction_available_iff (net : Network) (device : EnphaseEnvoy)
    (client : Client) :
  enphaseApi device = Some client ->
  (availability (homey (checkProduction net device)) = Available <->
   exists meterData c1 productionData c2,
     getMeters net client = (Ok meterData, c1) /\
     getProductionData net c1 = (Ok productionData, c2) /\
     production productionData <> []).
Proof.
  intros Hc. split.
  - intros Hav.
    destruct (checkProduction_available net device client Hc Hav)
      as (md & pd & entry & rest & c1 & c2 & Hm & Hp & He & _).
    exists md, c1, pd, c2. rewrite He. by repeat split.
  - intros (md & c1 & pd & c2 & Hm & Hp & He).
    rewrite (checkProduction_run net device client Hc), checkProduction_try_run,
      Hm, Hp. simpl. destruct (production pd); [done|reflexivity].
Qed.

Lemma checkProduction_available_iff_witness :
  availability (homey (checkProduction net_producing discovered)) = Available.
Proof.
  destruct (checkProduction_available_iff net_producing discovered staleClient
              eq_refl) as (_ & H).
  apply H. do 4 eexists. split; [reflexivity|]. split; [reflexivity|discriminate].
Defined.

(** X16.  A poll re-authenticates at most twice and sends at most ten
    requests: each of its two fetches is a first call of
    [fetchApiEndpoint]. *)
Theorem checkProduction_bounded (net : Network) (device : EnphaseEnvoy)
    (client client' : Client) :
  enphaseApi device = Some client ->
  enphaseApi (checkProduction net device) = Some client' ->
  (length (sentBetween client client') <= 10)%nat /\
  (countRequests isLoginRequest (sentBetween client client') <= 2)%nat.
Proof.
  intros Hc Hc'. rewrite (checkProduction_client net device client Hc) in Hc'.
  injection Hc' as <-. rewrite checkProduction_try_client.
  pose proof (fetchApiEndpoint_request_bounds net "ivp/meters" false client)
    as (Hl1 & Hn1 & _).
  destruct (fetchApiEndpoint_requests net "ivp/meters" false client)
    as (_ & l1 & Hs1 & _).
  rewrite <- (getter_client net asMeters) in Hl1, Hn1, Hs1.
  fold (getMeters net) in Hl1, Hn1, Hs1.
  destruct (getMeters net client) as [[md|e] c1]; simpl in Hl1, Hn1, Hs1;
    [|split; lia].
  pose proof (fetchApiEndpoint_request_bounds net "production.json" false c1)
    as (Hl2 & Hn2 & _).
  destruct (fetchApiEndpoint_requests net "production.json" false c1)
    as (_ & l2 & Hs2 & _).
  rewrite <- (getter_client net asProduction) in Hl2, Hn2, Hs2.
  fold (getProductionData net) in Hl2, Hn2, Hs2.
  rewrite (sentBetween_app _ _ _ Hs1) in Hl1, Hn1.
  rewrite (sentBetween_app _ _ _ Hs2) in Hl2, Hn2.
  rewrite (sentBetween_app client _ (l1 ++ l2))
    by (rewrite Hs2, Hs1, app_assoc; reflexivity).
  rewrite length_app, countRequests_app. simpl in *. split; lia.
Qed.

Lemma checkProduction_bounded_witness :
  (length (sentBetween staleClient (afterRequest staleClient "ivp/meters")) <= 10)%nat.
Proof.
  destruct (checkProduction_bounded net_unreachable discovered staleClient
              (afterRequest staleClient "ivp/meters") eq_refl eq_refl) as (H & _).
  exact H.
Defined.

(** X17.  A poll never changes the address, the serial number or the
    credentials of the client, and never removes the client. *)
Theorem checkProduction_keeps_config (net : Network) (device : EnphaseEnvoy)
    (client : Client) :
  enphaseApi device = Some client ->
  exists client',
    enphaseApi (checkProduction net device) = Some client' /\
    address (this client') = address (this client) /\
    deviceSn (this client') = deviceSn (this client) /\
    username (this client') = username (this client) /\
    password (this client') = password (this client).
Proof.
  intros Hc. eexists. split; [apply (checkProduction_client net device client Hc)|].
  rewrite checkProduction_try_client.
  pose proof (fetchApiEndpoint_config net "ivp/meters" false client) as H1.
  rewrite <- (getter_client net asMeters) in H1. fold (getMeters net) in H1.
  destruct (getMeters net client) as [[md|e] c1]; simpl in H1; [|exact H1].
  pose proof (fetchApiEndpoint_config net "production.json" false c1) as H2.
  rewrite <- (getter_client net asProduction) in H2.
  fold (getProductionData net) in H2.
  destruct H1 as (-> & -> & -> & ->) in H2. exact H2.
Qed.

Lemma checkProduction_keeps_config_witness :
  exists client',
    enphaseApi (checkProduction net_producing discovered) = Some client' /\
    address (this client') = Some "192.168.1.20" /\
    deviceSn (this client') = "122000000001" /\
    username (this client') = "user@example.org" /\
    password (this client') = "secret".
Proof.
  exact (checkProduction_keeps_config net_producing discovered staleClient eq_refl).
Defined.

(** X18.  When the gateway answers the first request of a poll with a
    status that is neither 2xx nor 4xx, the message the device is made
    unavailable with spells out the status and the stored bearer token
    and session id. *)
Theorem checkProduction_failure_message (net : Network) (device : EnphaseEnvoy)
    (client : Client) (a : string) (response : Response) :
  enphaseApi device = Some client ->
  address (this client) = Some a ->
  net (sent client)
      (gatewayRequest (address (this client)) "ivp/meters"
         (sessionId (this client)))
  = Resolved response ->
  isClientError response = false ->
  ok response = false ->
  availability (homey (checkProduction net device))
  = Unavailable
      ("An unknown error occurred while fetching inverter data:"
       ++ pretty (status response)
       ++ " and bearer: " ++ show (accessToken (this client))
       ++ " and sessionId: " ++ show (sessionId (this client)))%string.
Proof.
  intros Hc Ha Hn H4 Hok.
  rewrite (checkProduction_run net device client Hc), checkProduction_try_run.
  unfold getMeters, bind.
  rewrite fetchApiEndpoint_run, Hn, H4, Hok.
  destruct (address (this client)); [reflexivity|discriminate].
Qed.

Lemma checkProduction_failure_message_witness :
  availability (homey (checkProduction net_gateway_down discovered))
  = Unavailable
      "An unknown error occurred while fetching inverter data:503 and bearer: OLDTOKEN and sessionId: oldcookie".
Proof.
  exact (checkProduction_failure_message net_gateway_down discovered staleClient
           "192.168.1.20" (mkResponse 503 None "service unavailable" None)
           eq_refl eq_refl eq_refl eq_refl eq_refl).
Defined.


(** * The lifecycle callbacks *)

(** X19.  When the cloud does not accept the new credentials, [onSettings]
    throws the failed-login error and leaves the device as it was: the
    client keeps its credentials and the availability is not touched. *)
Theorem onSettings_rejected (net : Network) (newSettings : DeviceSettings)
    (device : EnphaseEnvoy) (response : Response) :
  net [] (loginRequest (settings_username newSettings)
            (settings_password newSettings))
  = Resolved response ->
  ok response = false ->
  onSettings net newSettings device = (Throw loginFailedError, device).
Proof.
  intros Hn Hok. unfold onSettings, verifyCredentials, getEnphaseSessionId.
  run_monad. rewrite Hn, Hok. reflexivity.
Qed.

Lemma onSettings_rejected_witness :
  onSettings net_login_rejected newCredentials discovered
  = (Throw loginFailedError, discovered).
Proof.
  exact (onSettings_rejected net_login_rejected newCredentials discovered
           (mkResponse 401 None "invalid credentials" None) eq_refl eq_refl).
Defined.

(** X20.  When the cloud accepts the new credentials, [onSettings] makes
    the device available and hands the credentials to the client, which
    keeps its address, serial number, bearer token and session id; the
    next [getAccessToken] of that client logs in with the new
    credentials. *)
Theorem onSettings_accepted (net : Network) (newSettings : DeviceSettings)
    (device : EnphaseEnvoy) (client : Client) (response : Response)
    (sid : string) :
  enphaseApi device = Some client ->
  net [] (loginRequest (settings_username newSettings)
            (settings_password newSettings))
  = Resolved response ->
  ok response = true ->
  json response = Some (JsonLogin sid) ->
  let u := settings_username newSettings in
  let p := settings_password newSettings in
  exists client',
    onSettings net newSettings device
    = (Ok tt, mkDevice (Some client') (setAvailable_ (homey device))) /\
    this client' = mkApi (address (this client)) (deviceSn (this client)) u p
                         (accessToken (this client)) (sessionId (this client)) /\
    sent client' = sent client /\
    forall net',
      head (sentBetween client' (snd (getAccessToken net' client')))
      = Some (loginRequest u p).
Proof.
  intros Hc Hn Hok Hj. cbv zeta.
  exists (mkClient (setCredentials (settings_username newSettings)
                      (settings_password newSettings) (this client))
                   (sent client)).
  split; [|split; [reflexivity|split; [reflexivity|]]].
  - unfold onSettings, verifyCredentials, getEnphaseSessionId, withCredentials.
    run_monad. rewrite Hn, Hok. simpl. rewrite Hj. simpl. rewrite Hc. reflexivity.
  - intros net'.
    destruct (getAccessToken_trace net'
                (mkClient (setCredentials (settings_username newSettings)
                             (settings_password newSettings) (this client))
                          (sent client))) as (rest & Hs & _).
    by rewrite (sentBetween_app _ _ _ Hs).
Qed.

Lemma onSettings_accepted_witness :
  fst (onSettings (scripted [loginOk]) newCredentials discovered) = Ok tt /\
  (this <$> enphaseApi (snd (onSettings (scripted [loginOk]) newCredentials
                               discovered)))
  = Some (mkApi (Some "192.168.1.20") "122000000001" "new@example.org" "hunter2"
                (Val "OLDTOKEN") (Val "oldcookie")).
Proof.
  destruct (onSettings_accepted (scripted [loginOk]) newCredentials discovered
              staleClient (mkResponse 200 None "{session_id: S1}"
                             (Some (JsonLogin "S1")))
              "S1" eq_refl eq_refl eq_refl eq_refl)
    as (client' & Heq & Hthis & _).
  rewrite Heq. simpl. rewrite Hthis. split; reflexivity.
Defined.

(** X21.  A device that was never discovered has no client: a poll sends
    nothing and makes it unavailable with the discovery message, and
    accepted settings make it available without giving it a client, so
    the next poll makes it unavailable again. *)
Theorem undiscovered_device (net : Network) (newSettings : DeviceSettings)
    (device : EnphaseEnvoy) (response : Response) (sid : string) :
  enphaseApi device = None ->
  net [] (loginRequest (settings_username newSettings)
            (settings_password newSettings))
  = Resolved response ->
  ok response = true ->
  json response = Some (JsonLogin sid) ->
  let notFound :=
    Unavailable "Enphase Envoy could not be discovered on your network" in
  let configured := snd (onSettings net newSettings device) in
  enphaseApi (checkProduction net device) = None /\
  availability (homey (checkProduction net device)) = notFound /\
  capabilities (homey (checkProduction net device)) = capabilities (homey device) /\
  enphaseApi configured = None /\
  availability (homey configured) = Available /\
  availability (homey (checkProduction net configured)) = notFound.
Proof.
  intros Hc Hn Hok Hj. cbv zeta.
  assert (Hs : onSettings net newSettings device
               = (Ok tt, mkDevice None (setAvailable_ (homey device)))).
  { unfold onSettings, verifyCredentials, getEnphaseSessionId, withCredentials.
    run_monad. rewrite Hn, Hok. simpl. rewrite Hj. simpl. rewrite Hc. reflexivity. }
  rewrite Hs. unfold checkProduction. rewrite Hc. simpl. repeat split.
Qed.

Lemma undiscovered_device_witness :
  let device := mkDevice None idleHomey in
  availability (homey (checkProduction (scripted [loginOk])
                         (snd (onSettings (scripted [loginOk]) newCredentials
                                 device))))
  = Unavailable "Enphase Envoy could not be discovered on your network".
Proof.
  destruct (undiscovered_device (scripted [loginOk]) newCredentials
              (mkDevice None idleHomey)
              (mkResponse 200 None "{session_id: S1}" (Some (JsonLogin "S1")))
              "S1" eq_refl eq_refl eq_refl eq_refl) as (_ & _ & _ & _ & _ & H).
  exact H.
Defined.

(** X22.  A changed address replaces the client by a fresh one for the new
    address: the bearer token and the session id of the old client are
    gone, the readings and the availability are untouched, and the next
    poll opens with a request to the new address that carries no
    cookie. *)
Theorem onDiscoveryAddressChanged_fresh_client (net : Network) (id : string)
    (settings : DeviceSettings) (discoveryResult : DiscoveryResult)
    (device : EnphaseEnvoy) :
  let device' := onDiscoveryAddressChanged id settings discoveryResult device in
  homey device' = homey device /\
  (this <$> enphaseApi device')
  = Some (mkApi (Some (discovery_address discoveryResult)) id
                (settings_username settings) (settings_password settings)
                Null Null) /\
  exists client',
    enphaseApi (checkProduction net device') = Some client' /\
    head (sent client')
    = Some (mkRequest
              (gatewayUrl (Some (discovery_address discoveryResult)) "ivp/meters")
              GET [] NoBody GatewayAgent).
Proof.
  cbv zeta. split; [reflexivity|]. split; [reflexivity|].
  eexists. split; [by apply checkProduction_client|].
  rewrite checkProduction_try_client.
  set (c := discoveredClient id settings discoveryResult).
  destruct (fetchApiEndpoint_first_request net "ivp/meters" false c
              (discovery_address discoveryResult) eq_refl) as (l1 & Hs1).
  rewrite <- (getter_client net asMeters) in Hs1. fold (getMeters net) in Hs1.
  destruct (getMeters net c) as [[md|e] c1]; simpl in Hs1;
    [|by rewrite Hs1].
  destruct (fetchApiEndpoint_requests net "production.json" false c1)
    as (_ & l2 & Hs2 & _).
  rewrite <- (getter_client net asProduction) in Hs2.
  fold (getProductionData net) in Hs2.
  by rewrite Hs2, Hs1.
Qed.

(** X23.  [onDiscoveryAvailable] installs the fresh client before it
    probes the gateway, so the device has a client for the discovered
    address whether the probe returns or throws; the callback throws
    exactly what [getProductionData] throws on that client, and it
    touches neither the readings nor the availability. *)
Theorem onDiscoveryAvailable_installs_client (net : Network) (id : string)
    (settings : DeviceSettings) (discoveryResult : DiscoveryResult)
    (device : EnphaseEnvoy) :
  let fresh := discoveredClient id settings discoveryResult in
  let outcome := onDiscoveryAvailable net id settings discoveryResult device in
  homey (snd outcome) = homey device /\
  enphaseApi (snd outcome) = Some (snd (getProductionData net fresh)) /\
  (forall e, fst outcome = Throw e <-> fst (getProductionData net fresh) = Throw e) /\
  exists client',
    enphaseApi (snd outcome) = Some client' /\
    address (this client') = Some (discovery_address discoveryResult) /\
    deviceSn (this client') = id /\
    username (this client') = settings_username settings /\
    password (this client') = settings_password settings /\
    head (sent client')
    = Some (mkRequest
              (gatewayUrl (Some (discovery_address discoveryResult))
                 "production.json")
              GET [] NoBody GatewayAgent).
Proof.
  cbv zeta. unfold onDiscoveryAvailable.
  set (c := discoveredClient id settings discoveryResult).
  pose proof (fetchApiEndpoint_config net "production.json" false c) as Hk.
  destruct (fetchApiEndpoint_first_request net "production.json" false c
              (discovery_address discoveryResult) eq_refl) as (l & Hs).
  rewrite <- (getter_client net asProduction) in Hk, Hs.
  fold (getProductionData net) in Hk, Hs.
  destruct (getProductionData net c) as [[pd|e] c1]; simpl in *;
    (split; [reflexivity|]; split; [reflexivity|]; split;
     [intros e'; split; intros H;
      (discriminate || (injection H as ->; reflexivity))|]);
    (exists c1; split; [reflexivity|]; destruct Hk as (-> & -> & -> & ->);
     rewrite Hs; repeat split).
Qed.


(** * The cookie pattern and the meter join *)

(** X24.  A session id taken from a [Set-Cookie] header is a value the
    header carries as [sessionId=<value>;], it holds neither a semicolon
    nor a line terminator, and it is never [null]. *)
Theorem parseSessionId_captured (header : option string) :
  parseSessionId header <> Null /\
  forall v,
    parseSessionId header = Val v ->
    (exists s pre post,
       header = Some s /\
       s = (pre ++ "sessionId=" ++ v ++ ";" ++ post)%string) /\
    noSemicolon v = true /\ noLineTerminator v = true.
Proof.
  unfold parseSessionId. split.
  - destruct (header ≫= matchSessionId); discriminate.
  - intros v. destruct header as [s|]; simpl; [|discriminate].
    destruct (matchSessionId s) as [w|] eqn:Hm; [|discriminate].
    intros [= ->].
    destruct (matchSessionId_sound s v Hm) as ((pre & post & Hs) & Hsemi & Hlt).
    split; [by exists s, pre, post|done].
Qed.

Lemma parseSessionId_captured_witness :
  (exists s pre post,
     Some "lang=en; sessionId=abc123; Path=/" = Some s /\
     s = (pre ++ "sessionId=" ++ "abc123" ++ ";" ++ post)%string) /\
  noSemicolon "abc123" = true /\ noLineTerminator "abc123" = true.
Proof.
  destruct (parseSessionId_captured (Some "lang=en; sessionId=abc123; Path=/"))
    as (_ & H).
  exact (H "abc123" eq_refl).
Defined.

(** X25.  The stored session id is [undefined] exactly when the header is
    absent or holds no [sessionId=], then characters other than line
    terminators, then a semicolon. *)
Theorem parseSessionId_undefined_iff (header : option string) :
  parseSessionId header = Undefined <->
  header = None \/
  exists s,
    header = Some s /\
    ~ exists pre v post,
        s = (pre ++ "sessionId=" ++ v ++ ";" ++ post)%string /\
        noLineTerminator v = true.
Proof.
  unfold parseSessionId. destruct header as [s|]; simpl.
  2:{ split; [by left|done]. }
  pose proof (matchSessionId_matches s) as Hm.
  destruct (matchSessionId s) as [w|].
  - split; [discriminate|].
    intros [H|(s' & [= <-] & Hn)]; [discriminate|].
    exfalso. apply Hn, Hm. eauto.
  - split; [|done]. intros _. right. exists s. split; [reflexivity|].
    intros H. apply Hm in H. by destruct H.
Qed.

Lemma parseSessionId_undefined_iff_witness :
  parseSessionId None = Undefined.
Proof.
  apply (parseSessionId_undefined_iff None). by left.
Defined.

(** X26.  A power the join finds is real: it is not 0, the meter list has
    a meter of the type asked for, and the readings have a reading with
    that meter's [eid] and this active power. *)
Theorem activePowerOfType_sound (type : string) (meterData : list Meter)
    (readings : list MeterReading) (power : Z) :
  activePowerOfType type meterData readings = Some power ->
  power <> 0 /\
  exists meter reading,
    meter ∈ meterData /\ measurementType meter = type /\
    reading ∈ readings /\ reading_eid reading = eid meter /\
    activePower reading = power.
Proof.
  unfold activePowerOfType, eidOfType.
  destruct (find _ readings) as [reading|] eqn:Hr; simpl; [|discriminate].
  destruct (activePower reading =? 0) eqn:Hz; [discriminate|].
  intros [= <-]. split; [by apply Z.eqb_neq|].
  apply find_some in Hr as (Hin & Heq). apply bool_decide_eq_true in Heq.
  destruct (find _ meterData) as [meter|] eqn:Hm; simpl in Heq; [|discriminate].
  injection Heq as Heq.
  apply find_some in Hm as (Hmin & Hty). apply bool_decide_eq_true in Hty.
  exists meter, reading. repeat split; try done; by apply list_elem_of_In.
Qed.

Lemma activePowerOfType_sound_witness :
  exists meter reading,
    meter ∈ twoMeters /\ measurementType meter = PRODUCTION_METER /\
    reading ∈ [mkReading 704643328 500; mkReading 704643584 (-120)] /\
    reading_eid reading = eid meter /\ activePower reading = 500.
Proof.
  destruct (activePowerOfType_sound PRODUCTION_METER twoMeters
              [mkReading 704643328 500; mkReading 704643584 (-120)] 500 eq_refl)
    as (_ & H).
  exact H.
Defined.

(** X27.  When the meter list has no meter of a type, the power of that
    type is null whatever the readings hold; and of several readings
    with the meter's [eid] only the first counts. *)
Theorem activePowerOfType_edges (type : string) (meterData : list Meter)
    (readings : list MeterReading) :
  (Forall (fun meter => measurementType meter <> type) meterData ->
   activePowerOfType type meterData readings = None) /\
  (forall meter first,
     eidOfType type meterData = Some (eid meter) ->
     reading_eid first = eid meter ->
     activePowerOfType type meterData (first :: readings)
     = orNull (Some (activePower first))).
Proof.
  split.
  - intros Hnone. unfold activePowerOfType.
    assert (He : eidOfType type meterData = None).
    { unfold eidOfType. destruct (find _ meterData) as [meter|] eqn:Hm;
        [|reflexivity].
      apply find_some in Hm as (Hin & Hty). apply bool_decide_eq_true in Hty.
      rewrite Forall_forall in Hnone. apply list_elem_of_In in Hin.
      by destruct (Hnone meter Hin). }
    rewrite He.
    replace (find _ readings) with (@None MeterReading); [reflexivity|].
    symmetry. induction readings as [|r l IH]; [reflexivity|exact IH].
  - intros meter first He Hf. unfold activePowerOfType. simpl.
    rewrite He, Hf. by rewrite bool_decide_eq_true_2.
Qed.

Lemma activePowerOfType_edges_witness :
  activePowerOfType PRODUCTION_METER [mkMeter 704643584 "net-consumption"]
    [mkReading 704643328 500; mkReading 704643584 (-120)] = None /\
  activePowerOfType PRODUCTION_METER twoMeters
    [mkReading 704643328 0; mkReading 704643328 500] = None.
Proof.
  split.
  - destruct (activePowerOfType_edges PRODUCTION_METER
                [mkMeter 704643584 "net-consumption"]
                [mkReading 704643328 500; mkReading 704643584 (-120)]) as (H & _).
    apply H. repeat constructor; discriminate.
  - destruct (activePowerOfType_edges PRODUCTION_METER twoMeters
                [mkReading 704643328 500]) as (_ & H).
    exact (H (mkMeter 704643328 "production") (mkReading 704643328 0)
             eq_refl eq_refl).
Defined.
